(** * vsconan: environment overlay manager and command builder

    A shallow embedding of [VSConanWorkspaceEnvironment] (the class that
    backs up, applies, persists and restores the environment variables of a
    Conan [VirtualBuildEnv] / [VirtualRunEnv]) and of the command builder it
    sits next to.

    The live process environment, the editor's environment variable
    collection, the two [workspaceState] keys and the file system are fields
    of an explicit [State]; every method is a function [State -> State] that
    also appends the calls it makes on its collaborators to a [trace].
    The [console.log] calls are left out. The write of the [.env] file,
    which the code makes in the callback of the workspace selection, is
    made at the call, so the writes keep the order of the calls. The
    restart of the extension host that ends an activation is a call in the
    trace; the process that replaces the host is a new [State] handed to
    [constructor]. *)

From Stdlib Require Import Ascii.
From stdpp Require Import base option list strings gmap fin_maps.

Local Open Scope string_scope.
Local Open Scope list_scope.

(** ** Data model *)

(** [type EnvVars = Array<[string, string | undefined]>]; [None] is
    [undefined], and the [null] it becomes in a stored array, which the
    code treats alike. *)
Abbreviation EnvVars := (list (string * option string)) (only parsing).

(** [enum ConanEnv] with its string values. *)
Inductive ConanEnv : Type := buildEnv | runEnv.

Definition ConanEnv_value (e : ConanEnv) : string :=
  match e with
  | buildEnv => "BuildEnv"
  | runEnv => "RunEnv"
  end.

#[global] Instance ConanEnv_eq_dec : EqDecision ConanEnv.
Proof. solve_decision. Defined.

(** The value kept under ["vsconan.activeEnv"]:
    [[configName, conanEnv, newenv]]. *)
Abbreviation ActiveEnv :=
  (string * ConanEnv * list (string * string))%type (only parsing).

(** [[string, string][]] used where [EnvVars] is expected. *)
Definition toEnvVars (l : list (string * string)) : EnvVars :=
  (λ kv, (kv.1, Some kv.2)) <$> l.

(** Lines sent to the output channel. *)
Inductive OutputLine : Type :=
| LineExecuting (cmd : string)
| LineActivate (conanEnv : ConanEnv) (newenv : list (string * string)).

(** Calls made on the collaborators, in the order they are made. *)
Inductive Effect : Type :=
| EnvAssign (key value : string)
| EnvDelete (key : string)
| CollectionReplace (key value : string)
| CollectionDelete (key : string)
| StateUpdateBackupEnv (value : EnvVars)
| StateUpdateActiveEnv (value : option ActiveEnv)
| WriteFileSync (path content : string)
| ExecuteCommand (command : string)
| AppendLine (line : OutputLine)
| ShowInformationMessage (message : string)
| ShowErrorMessage (message : string).

Record State : Type := mkState {
  (** [process.env] *)
  process_env : gmap string string;
  (** [context.environmentVariableCollection] *)
  environmentVariableCollection : gmap string string;
  (** [context.workspaceState], key ["vsconan.backupEnv"] *)
  ws_backupEnv : option EnvVars;
  (** [context.workspaceState], key ["vsconan.activeEnv"] *)
  ws_activeEnv : option ActiveEnv;
  (** the file system, path to content *)
  files : gmap string string;
  trace : list Effect
}.

(** What the collaborators answer: the [.env] setting, the workspace
    picker, [vscode.env.remoteName] and Node's [path] module. *)
Record Host : Type := mkHost {
  isUpdateDotEnv : bool;
  selectWorkspace : option string;
  remoteName : option string;
  path_dirname : string → string;
  path_delimiter : string;
  path_join : string → string → string;
  envScript : string
}.

(** ** Primitive operations on the state *)

Definition emit (e : Effect) (st : State) : State :=
  {| process_env := process_env st;
     environmentVariableCollection := environmentVariableCollection st;
     ws_backupEnv := ws_backupEnv st;
     ws_activeEnv := ws_activeEnv st;
     files := files st;
     trace := trace st ++ [e] |}.

(** [process.env[key] = value], for a name the operating system accepts;
    Node drops the assignment under an empty name or one with [=]. *)
Definition env_assign (key value : string) (st : State) : State :=
  emit (EnvAssign key value)
    {| process_env := <[key := value]> (process_env st);
       environmentVariableCollection := environmentVariableCollection st;
       ws_backupEnv := ws_backupEnv st;
       ws_activeEnv := ws_activeEnv st;
       files := files st;
       trace := trace st |}.

(** [delete process.env[key]] *)
Definition env_delete (key : string) (st : State) : State :=
  emit (EnvDelete key)
    {| process_env := delete key (process_env st);
       environmentVariableCollection := environmentVariableCollection st;
       ws_backupEnv := ws_backupEnv st;
       ws_activeEnv := ws_activeEnv st;
       files := files st;
       trace := trace st |}.

(** [environmentVariableCollection.replace(key, value)] *)
Definition collection_replace (key value : string) (st : State) : State :=
  emit (CollectionReplace key value)
    {| process_env := process_env st;
       environmentVariableCollection :=
         <[key := value]> (environmentVariableCollection st);
       ws_backupEnv := ws_backupEnv st;
       ws_activeEnv := ws_activeEnv st;
       files := files st;
       trace := trace st |}.

(** [environmentVariableCollection.delete(key)] *)
Definition collection_delete (key : string) (st : State) : State :=
  emit (CollectionDelete key)
    {| process_env := process_env st;
       environmentVariableCollection :=
         delete key (environmentVariableCollection st);
       ws_backupEnv := ws_backupEnv st;
       ws_activeEnv := ws_activeEnv st;
       files := files st;
       trace := trace st |}.

(** [workspaceState.update("vsconan.backupEnv", value)] *)
Definition update_backupEnv (value : EnvVars) (st : State) : State :=
  emit (StateUpdateBackupEnv value)
    {| process_env := process_env st;
       environmentVariableCollection := environmentVariableCollection st;
       ws_backupEnv := Some value;
       ws_activeEnv := ws_activeEnv st;
       files := files st;
       trace := trace st |}.

(** [workspaceState.update("vsconan.activeEnv", value)]; [undefined]
    removes the key. *)
Definition update_activeEnv (value : option ActiveEnv) (st : State) : State :=
  emit (StateUpdateActiveEnv value)
    {| process_env := process_env st;
       environmentVariableCollection := environmentVariableCollection st;
       ws_backupEnv := ws_backupEnv st;
       ws_activeEnv := value;
       files := files st;
       trace := trace st |}.

(** [fs.writeFileSync(path, content)] *)
Definition writeFileSync (path content : string) (st : State) : State :=
  emit (WriteFileSync path content)
    {| process_env := process_env st;
       environmentVariableCollection := environmentVariableCollection st;
       ws_backupEnv := ws_backupEnv st;
       ws_activeEnv := ws_activeEnv st;
       files := <[path := content]> (files st);
       trace := trace st |}.

(** ** JavaScript values *)

(** [!value] for [value : string | undefined]: true on [undefined] and on
    the empty string. *)
Definition falsy (value : option string) : bool :=
  match value with
  | None => true
  | Some s => bool_decide (s = "")
  end.

(** A value interpolated in a template literal. *)
Definition String_of (value : option string) : string :=
  default "undefined" value.

(** [array.join(sep)] on strings. *)
Fixpoint join (sep : string) (l : list string) : string :=
  match l with
  | [] => ""
  | [x] => x
  | x :: l' => x +:+ sep +:+ join sep l'
  end.

(** [new Map(entries)]: later entries overwrite earlier ones;
    [new Map(undefined)] is empty. *)
Definition Map_of (entries : EnvVars) : gmap string (option string) :=
  foldl (λ m kv, <[kv.1 := kv.2]> m) ∅ entries.

(** A parsed JSON object whose members are strings, as the list
    [Object.entries] gives. [obj_get] is [o[key]], [obj_set] is
    [o[key] = value]: an existing member keeps its place, a new one goes
    last. *)
Fixpoint obj_get (o : list (string * string)) (key : string) : option string :=
  match o with
  | [] => None
  | (k, v) :: o' => if decide (k = key) then Some v else obj_get o' key
  end.

Fixpoint obj_set (key value : string) (o : list (string * string))
  : list (string * string) :=
  match o with
  | [] => [(key, value)]
  | (k, v) :: o' =>
      if decide (k = key) then (k, value) :: o'
      else (k, v) :: obj_set key value o'
  end.

(** ** The overlay manager ([VSConanWorkspaceEnvironment]) *)

Definition newline : string := String (ascii_of_nat 10) EmptyString.

(** One line of the [.env] file: [`${key}=${value}`]; an absent value
    that has come back from the store as [null] is written [null]. *)
Definition dotenv_line (kv : string * option string) : string :=
  kv.1 +:+ "=" +:+ String_of kv.2.

Definition dotenv_content (data : EnvVars) : string :=
  join newline (dotenv_line <$> data).

(** [updateDotEnvFile(data)]: nothing unless the setting is exactly
    [true]; the file is written once the workspace is resolved, a rejected
    selection shows a message instead. *)
Definition updateDotEnvFile (h : Host) (data : EnvVars) (st : State) : State :=
  if isUpdateDotEnv h then
    match selectWorkspace h with
    | Some result =>
        writeFileSync (path_join h result ".env") (dotenv_content data) st
    | None => emit (ShowInformationMessage "No workspace detected.") st
    end
  else st.

(** The body of the [forEach] in [updateVSCodeEnvironment]. *)
Definition applyPair (st : State) (kv : string * option string) : State :=
  if falsy kv.2 then collection_delete kv.1 (env_delete kv.1 st)
  else
    let value := String_of kv.2 in
    collection_replace kv.1 value (env_assign kv.1 value st).

(** [updateVSCodeEnvironment(data)] *)
Definition updateVSCodeEnvironment (h : Host) (data : EnvVars) (st : State)
  : State :=
  updateDotEnvFile h data (foldl applyPair st data).

(** [restoreEnvironment()] *)
Definition restoreEnvironment (h : Host) (st : State) : State :=
  let st1 :=
    match ws_backupEnv st with
    | Some backupEnv => updateVSCodeEnvironment h backupEnv st
    | None => st
    end in
  update_activeEnv None (updateDotEnvFile h [] st1).

(** The entry [updateBackupEnvironment] pushes for one key of [newenv]. *)
Definition backupEntry (backupEnv : gmap string (option string))
    (env : gmap string string) (key : string) : string * option string :=
  match backupEnv !! key with
  | Some value => (key, value)
  | None => (key, env !! key)
  end.

(** [updateBackupEnvironment(newenv)] *)
Definition updateBackupEnvironment (newenv : EnvVars) (st : State) : State :=
  let backupEnv := Map_of (default [] (ws_backupEnv st)) in
  let newBackupEnv :=
    (λ kv, backupEntry backupEnv (process_env st) kv.1) <$> newenv in
  update_backupEnv newBackupEnv st.

(** What [execSync] followed by [JSON.parse] can do: [execSync] throws on
    a non-zero exit status or when the 20 s timeout expires, [JSON.parse]
    throws on text that is not JSON, and otherwise the script's output is
    an object whose members are strings. *)
Inductive Extraction : Type :=
| ExecThrows (message : string)
| ParseThrows (message : string)
| Parsed (parsed : list (string * string)).

(** [readEnvFromConan(conanEnv, pythonInterpreter, args)] *)
Definition readEnvFromConan (h : Host) (conanEnv : ConanEnv)
    (pythonInterpreter args : string) (out : Extraction) (st : State)
  : State * (list (string * string) + string) :=
  let cmd := pythonInterpreter +:+ " " +:+ envScript h +:+ " "
             +:+ ConanEnv_value conanEnv +:+ " " +:+ args in
  let st1 := emit (AppendLine (LineExecuting cmd)) st in
  match out with
  | ExecThrows message => (emit (ShowErrorMessage message) st1, inr message)
  | ParseThrows message => (emit (ShowErrorMessage message) st1, inr message)
  | Parsed parsed =>
      let PATH := path_dirname h pythonInterpreter +:+ path_delimiter h
                  +:+ String_of (obj_get parsed "PATH") in
      (st1, inl (obj_set "PATH" PATH parsed))
  end.

(** Lines 51 to 61 of [activateEnvironment]: what is done with the
    overlay once it has been read. *)
Definition applyNewEnv (h : Host) (conanEnv : ConanEnv) (configName : string)
    (newenv : list (string * string)) (st : State) : State :=
  let st1 := updateBackupEnvironment (toEnvVars newenv) st in
  let st2 := updateVSCodeEnvironment h (toEnvVars newenv) st1 in
  let st3 := update_activeEnv (Some (configName, conanEnv, newenv)) st2 in
  let st4 :=
    match remoteName h with
    | None => emit (ExecuteCommand "workbench.action.restartExtensionHost") st3
    | Some _ => emit (ExecuteCommand "workbench.action.reloadWindow") st3
    end in
  let st5 := emit (AppendLine (LineActivate conanEnv newenv)) st4 in
  emit (ShowInformationMessage
          ("Activated Environment " +:+ configName +:+ "["
           +:+ ConanEnv_value conanEnv +:+ "]")) st5.

(** [activateEnvironment(conanEnv, configName, pythonInterpreter, args)];
    [inr message] is the rejected promise. *)
Definition activateEnvironment (h : Host) (conanEnv : ConanEnv)
    (configName pythonInterpreter args : string) (out : Extraction)
    (st : State) : State * (unit + string) :=
  let st1 := restoreEnvironment h st in
  match readEnvFromConan h conanEnv pythonInterpreter args out st1 with
  | (st2, inr message) => (st2, inr message)
  | (st2, inl newenv) => (applyNewEnv h conanEnv configName newenv st2, inl ())
  end.

(** [activeEnv()] *)
Definition activeEnv (st : State) : option ActiveEnv := ws_activeEnv st.

(** The constructor, after the three field assignments. *)
Definition constructor (h : Host) (st : State) : State :=
  match activeEnv st with
  | Some activeEnv => updateVSCodeEnvironment h (toEnvVars activeEnv.2) st
  | None => st
  end.

(** ** The superseded manager
    ([src/extension/manager/workspaceEnvironment.ts])

    The earlier file has [updateVSCodeEnvironment], [restoreEnvironment]
    and [updateDotEnvFile] with the bodies modelled above; its
    [updateBackupEnvironment] differs. *)

Module Superseded.

(** [updateBackupEnvironment(newenv)] of the earlier file: for a key the
    stored backup already has, the pushed value is the one of [newenv]. *)
Definition updateBackupEnvironment (newenv : EnvVars) (st : State) : State :=
  let backupEnv := Map_of (default [] (ws_backupEnv st)) in
  let newBackupEnv :=
    (λ kv,
       match backupEnv !! kv.1 with
       | Some _ => (kv.1, kv.2)
       | None => (kv.1, process_env st !! kv.1)
       end) <$> newenv in
  update_backupEnv newBackupEnv st.

End Superseded.

(** ** The command builder

    [src/conans/conan/commandBuilder.ts] and the configuration classes of
    [src/conans/command/configCommand.ts] are not among the sources; their
    test [buildCommandPackageExport] and the callers in
    [VSConanWorkspaceManager] are. *)

Module CommandBuilder.

(** Modelled from the spec: the six subcommand kinds of
    [SubcommandConfig] (section 3), which are also the members of
    [enum ConanCommand]. *)
Inductive SubcommandKind : Type :=
| Create | Install | Build | Source | Package | PackageExport.

(** Modelled from the spec: the optional folder fields a configuration
    can hold (section 3). *)
Inductive FolderField : Type :=
| InstallFolder | BuildFolder | PackageFolder | SourceFolder.

(** Modelled from the spec: a subcommand configuration, the missing
    [ConfigCommand] classes; every field is an optional string, and the
    empty string or absence means that the field is not set. *)
Record SubcommandConfig : Type := mkConfig {
  conanRecipe : option string;
  installFolder : option string;
  buildFolder : option string;
  packageFolder : option string;
  sourceFolder : option string
}.

Definition field (f : FolderField) (config : SubcommandConfig)
  : option string :=
  match f with
  | InstallFolder => installFolder config
  | BuildFolder => buildFolder config
  | PackageFolder => packageFolder config
  | SourceFolder => sourceFolder config
  end.

(** Modelled from the spec: the fixed order of a kind (section 4.1), its
    subcommand token followed by the flags of its optional folder
    fields in priority order. *)
Record Layout : Type := mkLayout {
  subcommand : string;
  optionalFields : list (string * FolderField)
}.

(** Modelled from the spec: the order of package-export (install, build,
    package, source folder) with the tokens the test expects. *)
Definition packageExportLayout : Layout :=
  {| subcommand := "export-pkg";
     optionalFields := [("-if", InstallFolder); ("-bf", BuildFolder);
                        ("-pf", PackageFolder); ("-sf", SourceFolder)] |}.

(** The spec names the order of package-export only; the layouts of the
    five other kinds are taken as [others]. *)
Definition layoutOf (others : SubcommandKind → Layout)
    (kind : SubcommandKind) : Layout :=
  match kind with
  | PackageExport => packageExportLayout
  | _ => others kind
  end.

(** Modelled from the spec: a non-empty optional field pushes its flag
    and its resolved path, an empty or absent one pushes nothing. *)
Definition pushField (resolve : string → string → string)
    (workspaceRoot : string) (config : SubcommandConfig)
    (cmd : list string) (ff : string * FolderField) : list string :=
  match field ff.2 config with
  | Some value =>
      if bool_decide (value = "") then cmd
      else cmd ++ [ff.1; resolve workspaceRoot value]
  | None => cmd
  end.

(** Modelled from the spec: [build(kind, workspaceRoot, config)], the
    missing [buildCommand...] methods of the command builder. [resolve]
    is the path resolver (the field joined under the workspace root and
    normalized); [None] is [absent]. *)
Definition build (resolve : string → string → string)
    (others : SubcommandKind → Layout) (kind : SubcommandKind)
    (workspaceRoot : string) (config : SubcommandConfig) : option string :=
  match conanRecipe config with
  | None => None
  | Some recipe =>
      if bool_decide (recipe = "") then None
      else
        let layout := layoutOf others kind in
        Some (join " "
                (foldl (pushField resolve workspaceRoot config)
                   [subcommand layout; resolve workspaceRoot recipe]
                   (optionalFields layout)))
  end.

(** [new ConfigCommandPackageExport()], with the defaults the first test
    of [buildCommandPackageExport] shows. *)
Definition defaultPackageExport : SubcommandConfig :=
  {| conanRecipe := Some "conanfile.py";
     installFolder := Some "install";
     buildFolder := Some "build";
     packageFolder := Some "package";
     sourceFolder := Some "source" |}.

(** The tokens a set of optional fields contributes, said at once. *)
Definition fieldTokens (resolve : string → string → string)
    (workspaceRoot : string) (config : SubcommandConfig)
    (ff : string * FolderField) : list string :=
  if falsy (field ff.2 config) then []
  else [ff.1; resolve workspaceRoot (String_of (field ff.2 config))].

(** The path resolver on POSIX paths that need no normalization. *)
Definition posix_resolve (workspaceRoot value : string) : string :=
  workspaceRoot +:+ "/" +:+ value.

(** The configurations of the tests of [buildCommandPackageExport]. *)
Definition withoutRecipe : SubcommandConfig :=
  {| conanRecipe := Some "";
     installFolder := Some "install";
     buildFolder := Some "build";
     packageFolder := Some "package";
     sourceFolder := Some "source" |}.

Definition withoutInstall : SubcommandConfig :=
  {| conanRecipe := Some "conanfile.py";
     installFolder := Some "";
     buildFolder := Some "build";
     packageFolder := Some "package";
     sourceFolder := Some "source" |}.

Definition withoutInstallBuild : SubcommandConfig :=
  {| conanRecipe := Some "conanfile.py";
     installFolder := Some "";
     buildFolder := Some "";
     packageFolder := Some "package";
     sourceFolder := Some "source" |}.

Definition packageOnly : SubcommandConfig :=
  {| conanRecipe := Some "conanfile.py";
     installFolder := Some "";
     buildFolder := Some "";
     packageFolder := Some "package";
     sourceFolder := Some "" |}.

Definition recipeOnly : SubcommandConfig :=
  {| conanRecipe := Some "conanfile.py";
     installFolder := Some "";
     buildFolder := Some "";
     packageFolder := Some "";
     sourceFolder := Some "" |}.

End CommandBuilder.

(** ** The workspace manager ([VSConanWorkspaceManager])

    The manager has no state of its own: each command is a function from
    what its collaborators answer to the calls it makes on them, in
    order. The collaborators are the workspace picker, the file system,
    the quick pick, the command builder and the command runner. *)

Module WorkspaceManager.

(** [enum ConanCommand] *)
Inductive ConanCommand : Type :=
| create | install | build | source | package | packageExport.

(** What the manager reads of a [ConfigCommand]: the three texts the
    quick pick shows. The fields of the command itself stay with the
    builder, as [fields]. *)
Record ConfigCommand (A : Type) : Type := mkConfigCommand {
  name : string;
  description : string;
  detail : string;
  fields : A
}.

Arguments mkConfigCommand {A} _ _ _ _.
Arguments name {A} _.
Arguments description {A} _.
Arguments detail {A} _.
Arguments fields {A} _.

(** [interface ConfigCommandQuickPickItem] *)
Record QuickPickItem : Type := mkItem {
  label : string;
  item_description : string;
  item_detail : string;
  index : nat
}.

(** [configWorkspace.commandContainer]: the members [create], [install],
    [build], [source], [pkg] and [pkgExport]; a member the configuration
    file does not have is [undefined]. *)
Record CommandContainer (A : Type) : Type := mkContainer {
  cc_create : option (list (ConfigCommand A));
  cc_install : option (list (ConfigCommand A));
  cc_build : option (list (ConfigCommand A));
  cc_source : option (list (ConfigCommand A));
  cc_pkg : option (list (ConfigCommand A));
  cc_pkgExport : option (list (ConfigCommand A))
}.

Arguments mkContainer {A} _ _ _ _ _ _.
Arguments cc_create {A} _.
Arguments cc_install {A} _.
Arguments cc_build {A} _.
Arguments cc_source {A} _.
Arguments cc_pkg {A} _.
Arguments cc_pkgExport {A} _.

(** What the manager reads of a [ConfigWorkspace]. *)
Record ConfigWorkspace (A : Type) : Type := mkConfigWorkspace {
  python : string;
  commandContainer : CommandContainer A
}.

Arguments mkConfigWorkspace {A} _ _.
Arguments python {A} _.
Arguments commandContainer {A} _.

(** The promise of [utils.workspace.selectWorkspace()]. *)
Inductive Selection : Type :=
| Rejected
| Resolved (result : option string).

(** The collaborators. [readConfig] is [JSON.parse] of [fs.readFileSync],
    [None] when either throws; [buildCommand] stands for the six
    [CommandBuilder.buildCommand...] methods, given the selected entry of
    the list, which is [undefined] when the index is out of range;
    [executeCommand] is [utils.vsconan.cmd.executeCommand], [Some message]
    when it throws an error with that message. *)
Record Desk (A : Type) : Type := mkDesk {
  selectWorkspace : Selection;
  existsSync : string → bool;
  readConfig : string → option (ConfigWorkspace A);
  showQuickPick : list QuickPickItem → option QuickPickItem;
  buildCommand :
    ConanCommand → string → string → option (ConfigCommand A) → option string;
  executeCommand : string → option string;
  path_join : list string → string;
  VSCONAN_FOLDER : string;
  CONFIG_FILE : string
}.

Arguments mkDesk {A} _ _ _ _ _ _ _ _ _.
Arguments selectWorkspace {A} _.
Arguments existsSync {A} _ _.
Arguments readConfig {A} _ _.
Arguments showQuickPick {A} _ _.
Arguments buildCommand {A} _ _ _ _ _.
Arguments executeCommand {A} _ _.
Arguments path_join {A} _ _.
Arguments VSCONAN_FOLDER {A} _.
Arguments CONFIG_FILE {A} _.

(** The calls the manager makes. *)
Inductive Call : Type :=
| QuickPick (items : list QuickPickItem)
| Execute (cmd : string)
| ErrorMessage (message : string)
| WarningMessage (message : string)
| InformationMessage (message : string)
| MkdirSync (path : string)
| CreateInitialWorkspaceConfig (path : string)
| OpenFileInEditor (path : string).

(** The items the loop of [getCommandConfigIndex] pushes. *)
Definition quickPickItems {A : Type} (configList : list (ConfigCommand A))
  : list QuickPickItem :=
  imap (λ i c, {| label := name c;
                  item_description := description c;
                  item_detail := detail c;
                  index := i |}) configList.

(** [getCommandConfigIndex(configList)]: the calls made and the index the
    promise resolves with, [None] when it is rejected. *)
Definition getCommandConfigIndex {A : Type} (desk : Desk A)
    (configList : option (list (ConfigCommand A))) : list Call * option nat :=
  match configList with
  | Some configList =>
      let items := quickPickItems configList in
      ([QuickPick items], index <$> showQuickPick desk items)
  | None => ([], None)
  end.

(** The word of a command in its error message. *)
Definition commandWord (cmdType : ConanCommand) : string :=
  match cmdType with
  | create => "CREATE"
  | install => "INSTALL"
  | build => "BUILD"
  | source => "SOURCE"
  | package => "PACKAGE"
  | packageExport => "PACKAGE EXPORT"
  end.

(** The body the six [executeCommandConan...] methods share; they differ
    in the builder method they call and in the word of the message. *)
Definition executeCommandConan {A : Type} (desk : Desk A)
    (cmdType : ConanCommand) (wsPath python : string)
    (configList : option (list (ConfigCommand A))) : list Call :=
  match getCommandConfigIndex desk configList with
  | (calls, Some index) =>
      let selectedConfig := default [] configList !! index in
      match buildCommand desk cmdType wsPath python selectedConfig with
      | Some cmd =>
          match executeCommand desk cmd with
          | None => calls ++ [Execute cmd]
          | Some message => calls ++ [Execute cmd; ErrorMessage message]
          end
      | None =>
          calls ++ [ErrorMessage ("Unable to execute conan "
                                  +:+ commandWord cmdType +:+ " command!")]
      end
  | (calls, None) => calls
  end.

Definition executeCommandConanCreate {A : Type} (desk : Desk A) :=
  executeCommandConan desk create.
Definition executeCommandConanInstall {A : Type} (desk : Desk A) :=
  executeCommandConan desk install.
Definition executeCommandConanBuild {A : Type} (desk : Desk A) :=
  executeCommandConan desk build.
Definition executeCommandConanSource {A : Type} (desk : Desk A) :=
  executeCommandConan desk source.
Definition executeCommandConanPackage {A : Type} (desk : Desk A) :=
  executeCommandConan desk package.
Definition executeCommandConanPackageExport {A : Type} (desk : Desk A) :=
  executeCommandConan desk packageExport.

(** The member of the container a command takes its list from. *)
Definition containerOf {A : Type} (cmdType : ConanCommand)
    (container : CommandContainer A) : option (list (ConfigCommand A)) :=
  match cmdType with
  | create => cc_create container
  | install => cc_install container
  | build => cc_build container
  | source => cc_source container
  | package => cc_pkg container
  | packageExport => cc_pkgExport container
  end.

(** [executeConanCommand(cmdType)]. A rejected selection, a selection
    resolved with [undefined] and a configuration file that cannot be
    read or parsed end the callback with no further call. *)
Definition executeConanCommand {A : Type} (desk : Desk A)
    (cmdType : ConanCommand) : list Call :=
  match selectWorkspace desk with
  | Resolved (Some wsPath) =>
      let configPath :=
        path_join desk [wsPath; VSCONAN_FOLDER desk; CONFIG_FILE desk] in
      if existsSync desk configPath then
        match readConfig desk configPath with
        | Some configWorkspace =>
            let python := python configWorkspace in
            let container := commandContainer configWorkspace in
            match cmdType with
            | create =>
                executeCommandConanCreate desk wsPath python
                  (cc_create container)
            | install =>
                executeCommandConanInstall desk wsPath python
                  (cc_install container)
            | build =>
                executeCommandConanBuild desk wsPath python
                  (cc_build container)
            | source =>
                executeCommandConanSource desk wsPath python
                  (cc_source container)
            | package =>
                executeCommandConanPackage desk wsPath python
                  (cc_pkg container)
            | packageExport =>
                executeCommandConanPackageExport desk wsPath python
                  (cc_pkgExport container)
            end
        | None => []
        end
      else
        [WarningMessage ("Unable to find configuration file in the workspace '"
                         +:+ wsPath +:+ "'")]
  | _ => []
  end.

(** The second half of [createWorkspaceConfig()]: the message when the
    configuration file exists, the initial configuration and the editor
    otherwise. What [createInitialWorkspaceConfig] writes is not in the
    sources; the call is recorded and the paths are left as they are. *)
Definition writeInitialConfig {A : Type} (desk : Desk A)
    (vsconanPath : string) (paths : gset string) (calls : list Call)
  : gset string * list Call :=
  let configFilePath := path_join desk [vsconanPath; CONFIG_FILE desk] in
  if bool_decide (configFilePath ∈ paths) then
    (paths,
     calls ++ [InformationMessage
                 "Config file already exists in the workspace."])
  else
    (paths,
     calls ++ [CreateInitialWorkspaceConfig vsconanPath;
               OpenFileInEditor configFilePath]).

(** [createWorkspaceConfig()], on the set of paths that exist: the paths
    afterwards and the calls made. [String(result)] of a selection
    resolved with [undefined] is the text [undefined]. [mkdirThrows]
    says whether [fs.mkdirSync] throws on a path, as it does when the
    parent folder is missing; the [catch] of the promise then shows the
    message of a rejected selection. *)
Definition createWorkspaceConfig {A : Type} (desk : Desk A)
    (mkdirThrows : string → bool) (paths : gset string)
  : gset string * list Call :=
  match selectWorkspace desk with
  | Resolved result =>
      let vsconanPath :=
        path_join desk [String_of result; VSCONAN_FOLDER desk] in
      if bool_decide (vsconanPath ∈ paths) then
        writeInitialConfig desk vsconanPath paths []
      else if mkdirThrows vsconanPath then
        (paths,
         [MkdirSync vsconanPath;
          InformationMessage
            "Cannot create config file. No workspace detected."])
      else
        writeInitialConfig desk vsconanPath ({[vsconanPath]} ∪ paths)
          [MkdirSync vsconanPath]
  | Rejected =>
      (paths,
       [InformationMessage "Cannot create config file. No workspace detected."])
  end.

(** The calls that run a command line. *)
Definition isExecute (c : Call) : bool :=
  match c with
  | Execute _ => true
  | _ => false
  end.

(** A configuration file with two entries for [conan create], and a desk
    on which the user picks the second one. *)
Definition exampleConfig : ConfigWorkspace string :=
  {| python := "python3";
     commandContainer :=
       {| cc_create := Some [mkConfigCommand "debug" "" "" "-s build_type=Debug";
                             mkConfigCommand "release" "" ""
                               "-s build_type=Release"];
          cc_install := Some [];
          cc_build := None;
          cc_source := None;
          cc_pkg := None;
          cc_pkgExport := None |} |}.

Definition exampleDesk (configExists : bool) : Desk string :=
  {| selectWorkspace := Resolved (Some "/home/user/ws");
     existsSync := λ _, configExists;
     readConfig := λ _, Some exampleConfig;
     showQuickPick := λ items, items !! 1;
     buildCommand := λ cmdType wsPath python selectedConfig,
       match cmdType, selectedConfig with
       | create, Some c =>
           Some (python +:+ " -m conans.conan create " +:+ wsPath +:+ " "
                 +:+ fields c)
       | _, _ => None
       end;
     executeCommand := λ _, None;
     path_join := join "/";
     VSCONAN_FOLDER := ".vsconan";
     CONFIG_FILE := "config.json" |}.

End WorkspaceManager.

(** ** Reading the state *)

(** The names an overlay or a backup touches. *)
Definition names (data : EnvVars) : list string := data.*1.

(** What a value read back from the process environment is after it has
    gone through a backup: the empty string comes back as unset. *)
Definition restored (value : option string) : option string :=
  if falsy value then None else value.

(** [updateVSCodeEnvironment] seen from one map: the same assignments and
    deletions go to [process.env] and to the collection. *)
Definition setOrDelete (m : gmap string string) (kv : string * option string)
  : gmap string string :=
  if falsy kv.2 then delete kv.1 m else <[kv.1 := String_of kv.2]> m.

Definition applyVars (data : EnvVars) (m : gmap string string)
  : gmap string string :=
  foldl setOrDelete m data.

(** The overlay [readEnvFromConan] returns for a parsed object. *)
Definition overlayOf (h : Host) (pythonInterpreter : string)
    (parsed : list (string * string)) : list (string * string) :=
  obj_set "PATH"
    (path_dirname h pythonInterpreter +:+ path_delimiter h
     +:+ String_of (obj_get parsed "PATH")) parsed.

(** The message of a failed extraction. *)
Definition extractionError (out : Extraction) : option string :=
  match out with
  | ExecThrows message => Some message
  | ParseThrows message => Some message
  | Parsed _ => None
  end.

(** The two states of section 4.2, read from the persisted records. *)
Definition Inactive (st : State) : Prop :=
  ws_backupEnv st = None ∧ ws_activeEnv st = None.

Definition Active (st : State) : Prop :=
  is_Some (ws_backupEnv st) ∧ is_Some (ws_activeEnv st).

(** The value [updateBackupEnvironment] records for a name. *)
Definition backupValue (backupEnv : gmap string (option string))
    (env : gmap string string) (key : string) : option string :=
  match backupEnv !! key with
  | Some value => value
  | None => env !! key
  end.

(** The effects that write the live environment, the persisted state or
    the mirror file. *)
Definition isWrite (e : Effect) : bool :=
  match e with
  | EnvAssign _ _ | EnvDelete _ | CollectionReplace _ _ | CollectionDelete _
  | StateUpdateBackupEnv _ | StateUpdateActiveEnv _ | WriteFileSync _ _ => true
  | _ => false
  end.

(** The write effects a state has seen so far. *)
Definition writes (st : State) : list Effect :=
  filter (λ e, isWrite e) (trace st).

(** ** A host for the examples *)

(** What comes before the last separator of a path. *)
Fixpoint beforeLastSlash (p : string) : option string :=
  match p with
  | EmptyString => None
  | String c p' =>
      match beforeLastSlash p' with
      | Some d => Some (String c d)
      | None => if bool_decide (c = "/"%char) then Some "" else None
      end
  end.

(** [path.dirname] on a POSIX path without trailing or doubled
    separators. *)
Definition posix_dirname (p : string) : string :=
  match beforeLastSlash p with
  | None => "."
  | Some "" => "/"
  | Some d => d
  end.

(** POSIX paths, a local window, one workspace folder. *)
Definition posix (dotenv : bool) : Host :=
  {| isUpdateDotEnv := dotenv;
     selectWorkspace := Some "/home/user/ws";
     remoteName := None;
     path_dirname := posix_dirname;
     path_delimiter := ":";
     path_join := λ a b, a +:+ "/" +:+ b;
     envScript := "/ext/resources/print_env.py" |}.

(** ** Example states *)

(** A state in which ["CC"] is tracked: an earlier overlay had changed it
    from [cc], and the restore that opens the next activation has put
    [cc] back. *)
Definition trackedCC : State :=
  {| process_env := {[ "CC" := "cc" ]};
     environmentVariableCollection := {[ "CC" := "cc" ]};
     ws_backupEnv := Some [("CC", Some "cc")];
     ws_activeEnv := None;
     files := ∅;
     trace := [] |}.

(** A process started with [PATH] and [CC] set, and nothing persisted. *)
Definition freshState : State :=
  {| process_env := {[ "PATH" := "/usr/bin:/bin"; "CC" := "cc" ]};
     environmentVariableCollection := ∅;
     ws_backupEnv := None;
     ws_activeEnv := None;
     files := ∅;
     trace := [] |}.

(** The state [freshState] is in once a build environment that sets
    [PATH] and [CC] has been activated. *)
Definition activatedState : State :=
  (activateEnvironment (posix false) buildEnv "default" "/usr/bin/python3" ""
     (Parsed [("PATH", "/opt/conan/bin"); ("CC", "gcc")]) freshState).1.

(** The state of a restarted extension host: the marker is persisted, the
    process environment is the inherited one again. *)
Definition restartedState : State :=
  {| process_env := {[ "PATH" := "/usr/bin:/bin"; "CC" := "cc" ]};
     environmentVariableCollection :=
       environmentVariableCollection activatedState;
     ws_backupEnv := ws_backupEnv activatedState;
     ws_activeEnv := ws_activeEnv activatedState;
     files := ∅;
     trace := [] |}.

(** Nothing persisted, and a [.env] file the user wrote. *)
Definition inactiveWithDotEnv : State :=
  {| process_env := {[ "CC" := "cc" ]};
     environmentVariableCollection := ∅;
     ws_backupEnv := None;
     ws_activeEnv := None;
     files := {[ "/home/user/ws/.env" := "FOO=bar" ]};
     trace := [] |}.


(** Two outputs of the extraction script. *)
Definition parsedBuild : list (string * string) :=
  [("PATH", "/opt/conan/bin"); ("CC", "gcc")].

Definition parsedRun : list (string * string) :=
  [("PATH", "/opt/tools/bin"); ("LD_LIBRARY_PATH", "/opt/tools/lib")].

(** ** Sequences of calls *)

(** One call of [activateEnvironment], with what the extraction did. *)
Record Activation : Type := mkActivation {
  act_conanEnv : ConanEnv;
  act_configName : string;
  act_pythonInterpreter : string;
  act_args : string;
  act_out : Extraction
}.

(** The two commands of the manager. *)
Inductive Operation : Type :=
| Activate (a : Activation)
| Restore.

Definition perform (h : Host) (st : State) (op : Operation) : State :=
  match op with
  | Activate a =>
      (activateEnvironment h (act_conanEnv a) (act_configName a)
         (act_pythonInterpreter a) (act_args a) (act_out a) st).1
  | Restore => restoreEnvironment h st
  end.

Definition performAll (h : Host) (ops : list Operation) (st : State) : State :=
  foldl (perform h) st ops.

(** The names of the overlay an operation applies: none for a restore or
    for an activation whose extraction fails. *)
Definition touchedBy (h : Host) (op : Operation) : list string :=
  match op with
  | Activate a =>
      match act_out a with
      | Parsed parsed => (overlayOf h (act_pythonInterpreter a) parsed).*1
      | _ => []
      end
  | Restore => []
  end.

Definition touched (h : Host) (ops : list Operation) : list string :=
  ops ≫= touchedBy h.

(** ** The calls a method makes *)

(** The calls of the [forEach] body for one pair. *)
Definition pairEffects (kv : string * option string) : list Effect :=
  if falsy kv.2 then [EnvDelete kv.1; CollectionDelete kv.1]
  else [EnvAssign kv.1 (String_of kv.2);
        CollectionReplace kv.1 (String_of kv.2)].

(** The calls of [updateDotEnvFile(data)]. *)
Definition mirrorEffects (h : Host) (data : EnvVars) : list Effect :=
  if isUpdateDotEnv h then
    match selectWorkspace h with
    | Some result =>
        [WriteFileSync (path_join h result ".env") (dotenv_content data)]
    | None => [ShowInformationMessage "No workspace detected."]
    end
  else [].

(** The command that ends an activation. *)
Definition refreshCommand (h : Host) : string :=
  match remoteName h with
  | None => "workbench.action.restartExtensionHost"
  | Some _ => "workbench.action.reloadWindow"
  end.

(** An output of the script with an empty member. *)
Definition parsedEmptyMember : list (string * string) :=
  [("PATH", "/opt/conan/bin"); ("CFLAGS", "")].

(** Activation of the build environment, a failed activation of the run
    environment, activation of the run environment. *)
Definition exampleOperations : list Operation :=
  [Activate (mkActivation buildEnv "default" "/usr/bin/python3" ""
               (Parsed parsedBuild));
   Activate (mkActivation runEnv "default" "/usr/bin/python3" ""
               (ExecThrows "Command failed"));
   Restore;
   Activate (mkActivation runEnv "default" "/usr/bin/python3" ""
               (Parsed parsedRun))].

(** ** The restart that ends an activation *)





(** A name the operating system accepts for a variable: not empty and
    without [=]. An assignment to [process.env] under another name is
    dropped by Node, which the map [process_env] does not show. *)
Fixpoint hasEquals (s : string) : bool :=
  match s with
  | EmptyString => false
  | String c s' => bool_decide (c = "="%char) || hasEquals s'
  end.

Definition validName (key : string) : Prop :=
  key ≠ "" ∧ hasEquals key = false.

(** ** The command line, said at once *)

(** The text an optional folder adds to the command line: a space, the
    flag, a space and the resolved path. *)
Definition fieldText (resolve : string → string → string)
    (workspaceRoot : string) (config : CommandBuilder.SubcommandConfig)
    (ff : string * CommandBuilder.FolderField) : string :=
  " " +:+ ff.1 +:+ " "
  +:+ resolve workspaceRoot (String_of (CommandBuilder.field ff.2 config)).

Definition isSet (config : CommandBuilder.SubcommandConfig)
    (ff : string * CommandBuilder.FolderField) : Prop :=
  falsy (CommandBuilder.field ff.2 config) = false.

#[global] Instance isSet_dec config ff : Decision (isSet config ff).
Proof. unfold isSet. apply _. Defined.

Definition concatText (l : list string) : string := foldr String.append "" l.

#[global] Instance FolderField_eq_dec : EqDecision CommandBuilder.FolderField.
Proof. solve_decision. Defined.

(** * Properties *)

(** ** Maps built from entry lists *)

Lemma restored_idemp (value : option string) :
  restored (restored value) = restored value.
Proof. unfold restored. destruct (falsy value) eqn:E; simpl; by rewrite ?E. Qed.

Lemma restored_not_falsy (value : option string) :
  falsy value = false → Some (String_of value) = value.
Proof. destruct value as [s|]; simpl; [done | discriminate]. Qed.

Lemma Map_of_snoc (l : EnvVars) (kv : string * option string) :
  Map_of (l ++ [kv]) = <[kv.1 := kv.2]> (Map_of l).
Proof. unfold Map_of. by rewrite foldl_app. Qed.

Lemma Map_of_None (l : EnvVars) (k : string) :
  Map_of l !! k = None ↔ k ∉ names l.
Proof.
  unfold names. induction l as [|kv l IH] using rev_ind.
  - split; [intros _; apply not_elem_of_nil | done].
  - rewrite Map_of_snoc, fmap_app, elem_of_app. simpl.
    rewrite lookup_insert. case_decide as E.
    + split; [done |]. intros H. exfalso. apply H. right. subst. by left.
    + rewrite IH. split.
      * intros H [H1|H1]; [done |]. apply list_elem_of_singleton in H1. done.
      * intros H H1. apply H. by left.
Qed.

Lemma Map_of_keyed (g : string → option string) (l : EnvVars) (k : string) :
  Map_of ((λ kv, (kv.1, g kv.1)) <$> l) !! k
  = if decide (k ∈ names l) then Some (g k) else None.
Proof.
  unfold names. induction l as [|kv l IH] using rev_ind.
  - done.
  - rewrite fmap_app. simpl. rewrite Map_of_snoc. simpl.
    rewrite lookup_insert, fmap_app. simpl.
    destruct (decide (kv.1 = k)) as [E|E].
    + subst. rewrite decide_True; [done |]. apply elem_of_app. right. by left.
    + rewrite IH. destruct (decide (k ∈ l.*1)) as [H|H].
      * rewrite decide_True; [done |]. apply elem_of_app. by left.
      * rewrite decide_False; [done |]. rewrite elem_of_app.
        intros [H1|H1]; [done |]. apply list_elem_of_singleton in H1. done.
Qed.

Lemma applyVars_snoc (l : EnvVars) (kv : string * option string)
    (m : gmap string string) :
  applyVars (l ++ [kv]) m = setOrDelete (applyVars l m) kv.
Proof. unfold applyVars. by rewrite foldl_app. Qed.

(** After [data] has been applied, a name reads as the last value [data]
    gives it, an empty string counting as unset; the other names read as
    before. *)
Lemma applyVars_lookup (data : EnvVars) (m : gmap string string) (k : string) :
  applyVars data m !! k
  = match Map_of data !! k with
    | Some value => restored value
    | None => m !! k
    end.
Proof.
  induction data as [|kv data IH] using rev_ind; [done |].
  rewrite applyVars_snoc, Map_of_snoc. unfold setOrDelete.
  rewrite lookup_insert. destruct (falsy kv.2) eqn:F.
  - rewrite lookup_delete. case_decide as E; [| done].
    unfold restored. by rewrite F.
  - rewrite lookup_insert. case_decide as E; [| done].
    unfold restored. rewrite F. by apply restored_not_falsy.
Qed.

Lemma applyVars_other (data : EnvVars) (m : gmap string string) (k : string) :
  k ∉ names data → applyVars data m !! k = m !! k.
Proof.
  intros H. rewrite applyVars_lookup.
  apply Map_of_None in H. by rewrite H.
Qed.

(** ** What each method does to each field of the state *)

Lemma applyPair_fields (st : State) (kv : string * option string) :
  process_env (applyPair st kv) = setOrDelete (process_env st) kv
  ∧ environmentVariableCollection (applyPair st kv)
    = setOrDelete (environmentVariableCollection st) kv
  ∧ ws_backupEnv (applyPair st kv) = ws_backupEnv st
  ∧ ws_activeEnv (applyPair st kv) = ws_activeEnv st
  ∧ files (applyPair st kv) = files st.
Proof. unfold applyPair, setOrDelete. by destruct (falsy kv.2). Qed.

Lemma foldl_applyPair_fields (data : EnvVars) (st : State) :
  process_env (foldl applyPair st data) = applyVars data (process_env st)
  ∧ environmentVariableCollection (foldl applyPair st data)
    = applyVars data (environmentVariableCollection st)
  ∧ ws_backupEnv (foldl applyPair st data) = ws_backupEnv st
  ∧ ws_activeEnv (foldl applyPair st data) = ws_activeEnv st
  ∧ files (foldl applyPair st data) = files st.
Proof.
  revert st. induction data as [|kv data IH]; intros st; [done |].
  simpl. destruct (IH (applyPair st kv)) as (-> & -> & -> & -> & ->).
  destruct (applyPair_fields st kv) as (-> & -> & -> & -> & ->). done.
Qed.

Lemma updateDotEnvFile_fields (h : Host) (data : EnvVars) (st : State) :
  process_env (updateDotEnvFile h data st) = process_env st
  ∧ environmentVariableCollection (updateDotEnvFile h data st)
    = environmentVariableCollection st
  ∧ ws_backupEnv (updateDotEnvFile h data st) = ws_backupEnv st
  ∧ ws_activeEnv (updateDotEnvFile h data st) = ws_activeEnv st.
Proof.
  unfold updateDotEnvFile.
  by destruct (isUpdateDotEnv h), (selectWorkspace h).
Qed.

Lemma updateVSCodeEnvironment_fields (h : Host) (data : EnvVars) (st : State) :
  process_env (updateVSCodeEnvironment h data st)
  = applyVars data (process_env st)
  ∧ environmentVariableCollection (updateVSCodeEnvironment h data st)
    = applyVars data (environmentVariableCollection st)
  ∧ ws_backupEnv (updateVSCodeEnvironment h data st) = ws_backupEnv st
  ∧ ws_activeEnv (updateVSCodeEnvironment h data st) = ws_activeEnv st.
Proof.
  unfold updateVSCodeEnvironment.
  destruct (updateDotEnvFile_fields h data (foldl applyPair st data))
    as (-> & -> & -> & ->).
  destruct (foldl_applyPair_fields data st) as (-> & -> & -> & -> & _). done.
Qed.

(** [restoreEnvironment] re-applies the stored backup, clears the marker
    and keeps the backup where it is. *)
Lemma restoreEnvironment_fields (h : Host) (st : State) :
  process_env (restoreEnvironment h st)
  = applyVars (default [] (ws_backupEnv st)) (process_env st)
  ∧ environmentVariableCollection (restoreEnvironment h st)
    = applyVars (default [] (ws_backupEnv st))
        (environmentVariableCollection st)
  ∧ ws_backupEnv (restoreEnvironment h st) = ws_backupEnv st
  ∧ ws_activeEnv (restoreEnvironment h st) = None.
Proof.
  unfold restoreEnvironment. simpl.
  destruct (ws_backupEnv st) as [backupEnv|] eqn:E; simpl.
  - destruct (updateDotEnvFile_fields h []
                (updateVSCodeEnvironment h backupEnv st)) as (-> & -> & -> & _).
    destruct (updateVSCodeEnvironment_fields h backupEnv st)
      as (-> & -> & -> & _). done.
  - destruct (updateDotEnvFile_fields h [] st) as (-> & -> & -> & _). done.
Qed.

Lemma updateBackupEnvironment_fields (newenv : EnvVars) (st : State) :
  process_env (updateBackupEnvironment newenv st) = process_env st
  ∧ environmentVariableCollection (updateBackupEnvironment newenv st)
    = environmentVariableCollection st
  ∧ ws_backupEnv (updateBackupEnvironment newenv st)
    = Some ((λ kv, backupEntry (Map_of (default [] (ws_backupEnv st)))
                     (process_env st) kv.1) <$> newenv)
  ∧ ws_activeEnv (updateBackupEnvironment newenv st) = ws_activeEnv st.
Proof. done. Qed.

Lemma applyNewEnv_fields (h : Host) (conanEnv : ConanEnv) (configName : string)
    (newenv : list (string * string)) (st : State) :
  process_env (applyNewEnv h conanEnv configName newenv st)
  = applyVars (toEnvVars newenv) (process_env st)
  ∧ environmentVariableCollection (applyNewEnv h conanEnv configName newenv st)
    = applyVars (toEnvVars newenv) (environmentVariableCollection st)
  ∧ ws_backupEnv (applyNewEnv h conanEnv configName newenv st)
    = Some ((λ kv, backupEntry (Map_of (default [] (ws_backupEnv st)))
                     (process_env st) kv.1) <$> toEnvVars newenv)
  ∧ ws_activeEnv (applyNewEnv h conanEnv configName newenv st)
    = Some (configName, conanEnv, newenv).
Proof.
  unfold applyNewEnv.
  set (st1 := updateBackupEnvironment (toEnvVars newenv) st).
  destruct (updateVSCodeEnvironment_fields h (toEnvVars newenv) st1)
    as (E1 & E2 & E3 & _).
  destruct (remoteName h); simpl; rewrite E1, E2, E3; done.
Qed.

Lemma readEnvFromConan_fields (h : Host) (conanEnv : ConanEnv)
    (pythonInterpreter args : string) (out : Extraction) (st : State) :
  let st' := (readEnvFromConan h conanEnv pythonInterpreter args out st).1 in
  process_env st' = process_env st
  ∧ environmentVariableCollection st' = environmentVariableCollection st
  ∧ ws_backupEnv st' = ws_backupEnv st
  ∧ ws_activeEnv st' = ws_activeEnv st
  ∧ files st' = files st.
Proof. by destruct out. Qed.

(** ** The snapshot taken by [updateBackupEnvironment] *)

(** The new backup has one entry per entry of [newenv], under the same
    names and in the same order; the value of an entry is the value the
    stored backup has for its name when it has one, and the value
    [process.env] has for it otherwise. *)
Lemma updateBackupEnvironment_snapshot (newenv : EnvVars) (st : State) :
  ∃ snapshot,
    ws_backupEnv (updateBackupEnvironment newenv st) = Some snapshot
    ∧ names snapshot = names newenv
    ∧ ∀ (i : nat) key value, snapshot !! i = Some (key, value) →
        match Map_of (default [] (ws_backupEnv st)) !! key with
        | Some tracked => value = tracked
        | None => value = process_env st !! key
        end.
Proof.
  exists ((λ kv, backupEntry (Map_of (default [] (ws_backupEnv st)))
                   (process_env st) kv.1) <$> newenv).
  split; [reflexivity |]. split.
  - unfold names. rewrite <- list_fmap_compose. apply list_fmap_ext.
    intros i kv _. simpl. unfold backupEntry.
    by destruct (Map_of (default [] (ws_backupEnv st)) !! kv.1).
  - intros i key value H. rewrite list_lookup_fmap in H.
    destruct (newenv !! i) as [kv|]; simpl in H; [| done].
    unfold backupEntry in H.
    destruct (Map_of (default [] (ws_backupEnv st)) !! kv.1) eqn:E;
      injection H as <- <-; by rewrite E.
Qed.

(** C2. During activation the new backup is to record, for a name the
    stored backup already tracks, the value of the stored backup.
    [updateBackupEnvironment] of
    [src/extension/manager/workspaceEnvironment.ts] records the value of
    the incoming overlay instead: with ["CC"] tracked as [cc] and an
    overlay that sets it to [clang], it stores [clang], where the later
    version of the method stores [cc]. *)
Theorem superseded_updateBackupEnvironment_records_overlay_value :
  ws_backupEnv
    (Superseded.updateBackupEnvironment [("CC", Some "clang")] trackedCC)
  = Some [("CC", Some "clang")]
  ∧ ws_backupEnv (updateBackupEnvironment [("CC", Some "clang")] trackedCC)
    = Some [("CC", Some "cc")].
Proof. split; vm_compute; reflexivity. Qed.

(** ** Applying an overlay or a backup *)

Lemma updateVSCodeEnvironment_lookup (h : Host) (data : EnvVars) (st : State)
    (k : string) :
  process_env (updateVSCodeEnvironment h data st) !! k
  = match Map_of data !! k with
    | Some value => restored value
    | None => process_env st !! k
    end
  ∧ environmentVariableCollection (updateVSCodeEnvironment h data st) !! k
    = match Map_of data !! k with
      | Some value => restored value
      | None => environmentVariableCollection st !! k
      end.
Proof.
  destruct (updateVSCodeEnvironment_fields h data st) as (-> & -> & _).
  by rewrite !applyVars_lookup.
Qed.

(** C9. A pair whose value is the empty string is applied exactly as a
    pair whose value is absent: the loop of [updateVSCodeEnvironment]
    makes the same calls and reaches the same state for both, the
    variable is deleted from [process.env] and from the environment
    variable collection, and after the update it is set in neither. *)
Theorem empty_value_deletes_like_absent (h : Host) (before after : EnvVars)
    (key : string) (st : State) :
  foldl applyPair st (before ++ (key, Some "") :: after)
  = foldl applyPair st (before ++ (key, None) :: after)
  ∧ process_env (applyPair st (key, Some "")) = delete key (process_env st)
  ∧ environmentVariableCollection (applyPair st (key, Some ""))
    = delete key (environmentVariableCollection st)
  ∧ process_env
      (updateVSCodeEnvironment h (before ++ [(key, Some "")]) st) !! key
    = None
  ∧ environmentVariableCollection
      (updateVSCodeEnvironment h (before ++ [(key, Some "")]) st) !! key
    = None.
Proof.
  split; [by rewrite !foldl_app |].
  split; [done |]. split; [done |].
  destruct (updateVSCodeEnvironment_lookup h (before ++ [(key, Some "")])
              st key) as [-> ->].
  rewrite Map_of_snoc. simpl. by rewrite lookup_insert_eq.
Qed.

(** ** Construction *)



(** ** Restoration *)

Lemma restoreEnvironment_lookup (h : Host) (st : State) (k : string) :
  process_env (restoreEnvironment h st) !! k
  = match Map_of (default [] (ws_backupEnv st)) !! k with
    | Some value => restored value
    | None => process_env st !! k
    end.
Proof.
  destruct (restoreEnvironment_fields h st) as (-> & _).
  apply applyVars_lookup.
Qed.

(** C7, as the code has it. [restoreEnvironment] re-applies the stored
    backup to the live environment and clears the marker; the backup
    itself is not cleared, it stays in the store as it was. *)
Theorem restore_clears_marker_keeps_backup (h : Host) (st : State) :
  ws_activeEnv (restoreEnvironment h st) = None
  ∧ ws_backupEnv (restoreEnvironment h st) = ws_backupEnv st
  ∧ ∀ k,
      process_env (restoreEnvironment h st) !! k
      = match Map_of (default [] (ws_backupEnv st)) !! k with
        | Some value => restored value
        | None => process_env st !! k
        end.
Proof.
  destruct (restoreEnvironment_fields h st) as (_ & _ & Hb & Ha).
  split; [done |]. split; [done |]. apply restoreEnvironment_lookup.
Qed.

(** C7 as stated fails: restoring the activated example leaves its backup
    in the store. *)
Lemma restore_clears_both_records_counterexample :
  Active activatedState
  ∧ ¬ (ws_backupEnv (restoreEnvironment (posix false) activatedState) = None
       ∧ ws_activeEnv (restoreEnvironment (posix false) activatedState) = None).
Proof.
  split.
  - split; eexists; vm_compute; reflexivity.
  - intros [H _]. vm_compute in H. discriminate H.
Qed.

(** C6, as the code has it. With nothing persisted, [restoreEnvironment]
    changes no variable of [process.env] or of the collection and leaves
    both records absent; what it does is the update of the mirror file
    with no entries, which writes an empty file when the setting is on,
    and the update that clears the marker, which it issues in any
    case. *)
Theorem restore_when_inactive (h : Host) (st : State) :
  Inactive st →
  restoreEnvironment h st = update_activeEnv None (updateDotEnvFile h [] st)
  ∧ process_env (restoreEnvironment h st) = process_env st
  ∧ environmentVariableCollection (restoreEnvironment h st)
    = environmentVariableCollection st
  ∧ Inactive (restoreEnvironment h st)
  ∧ (isUpdateDotEnv h = false →
     files (restoreEnvironment h st) = files st
     ∧ trace (restoreEnvironment h st)
       = trace st ++ [StateUpdateActiveEnv None])
  ∧ (∀ ws, isUpdateDotEnv h = true → selectWorkspace h = Some ws →
     files (restoreEnvironment h st)
     = <[path_join h ws ".env" := ""]> (files st)
     ∧ trace (restoreEnvironment h st)
       = trace st ++ [WriteFileSync (path_join h ws ".env") "";
                      StateUpdateActiveEnv None]).
Proof.
  intros [Hb Ha].
  destruct (restoreEnvironment_fields h st) as (E1 & E2 & E3 & E4).
  rewrite Hb in E1, E2, E3.
  split; [unfold restoreEnvironment; by rewrite Hb |].
  split; [done |]. split; [done |]. split; [by split |].
  split.
  - intros Hoff. unfold restoreEnvironment, updateDotEnvFile.
    by rewrite Hb, Hoff.
  - intros ws Hon Hws. unfold restoreEnvironment, updateDotEnvFile.
    rewrite Hb, Hon, Hws. simpl. by rewrite <- app_assoc.
Qed.

Lemma restore_when_inactive_witness :
  process_env (restoreEnvironment (posix false) inactiveWithDotEnv)
  = process_env inactiveWithDotEnv
  ∧ trace (restoreEnvironment (posix false) inactiveWithDotEnv)
    = [StateUpdateActiveEnv None].
Proof.
  destruct (restore_when_inactive (posix false) inactiveWithDotEnv
              (conj eq_refl eq_refl)) as (_ & Henv & _ & _ & Hoff & _).
  split; [exact Henv |]. exact (proj2 (Hoff eq_refl)).
Defined.

(** C6 as stated fails: with the mirror setting on, restoring from the
    inactive state overwrites the [.env] file the user had, and it writes
    to the store as well. *)
Lemma restore_inactive_is_noop_counterexample :
  Inactive inactiveWithDotEnv
  ∧ files inactiveWithDotEnv !! "/home/user/ws/.env" = Some "FOO=bar"
  ∧ files (restoreEnvironment (posix true) inactiveWithDotEnv)
      !! "/home/user/ws/.env" = Some ""
  ∧ writes (restoreEnvironment (posix true) inactiveWithDotEnv)
    = [WriteFileSync "/home/user/ws/.env" ""; StateUpdateActiveEnv None]
  ∧ ¬ (writes (restoreEnvironment (posix true) inactiveWithDotEnv)
       = writes inactiveWithDotEnv).
Proof.
  split; [by split |]. split; [reflexivity |]. split; [reflexivity |].
  split; [reflexivity |]. intros H. vm_compute in H. discriminate H.
Qed.

(** ** Activation *)

Lemma writes_emit_other (e : Effect) (st : State) :
  isWrite e = false → writes (emit e st) = writes st.
Proof.
  intros H. unfold writes. simpl.
  rewrite filter_app, filter_cons_False by (rewrite H; simpl; tauto).
  by rewrite filter_nil, app_nil_r.
Qed.

(** C5, as the code has it. When the extraction fails,
    [activateEnvironment] rejects with the error message after the
    [restoreEnvironment] it starts with: the state it leaves is the
    restored one, with the backup unchanged and the marker cleared, and
    no write is made once the extraction has been attempted. When no
    backup was stored, the live environment is as it was. *)
Theorem activate_failure_leaves_restored_state (h : Host) (conanEnv : ConanEnv)
    (configName pythonInterpreter args : string) (out : Extraction)
    (st : State) (message : string) :
  extractionError out = Some message →
  ∃ st',
    activateEnvironment h conanEnv configName pythonInterpreter args out st
    = (st', inr message)
    ∧ process_env st' = process_env (restoreEnvironment h st)
    ∧ environmentVariableCollection st'
      = environmentVariableCollection (restoreEnvironment h st)
    ∧ files st' = files (restoreEnvironment h st)
    ∧ ws_backupEnv st' = ws_backupEnv st
    ∧ ws_activeEnv st' = None
    ∧ writes st' = writes (restoreEnvironment h st)
    ∧ (ws_backupEnv st = None →
       process_env st' = process_env st
       ∧ environmentVariableCollection st'
         = environmentVariableCollection st).
Proof.
  intros Hout.
  destruct (restoreEnvironment_fields h st) as (E1 & E2 & E3 & E4).
  unfold activateEnvironment.
  set (st1 := restoreEnvironment h st) in *. clearbody st1.
  destruct out as [m|m|parsed]; simpl in Hout; [| | discriminate];
    injection Hout as ->;
    (eexists; split; [reflexivity |]; simpl;
     repeat (split; [done |]);
     split; [by rewrite !writes_emit_other |];
     intros Hb; rewrite E1, E2, Hb; done).
Qed.

Lemma activate_failure_leaves_restored_state_witness :
  ∃ st',
    activateEnvironment (posix false) runEnv "default" "/usr/bin/python3" ""
      (ExecThrows "Command failed") freshState
    = (st', inr "Command failed")
    ∧ process_env st' = process_env freshState.
Proof.
  destruct (activate_failure_leaves_restored_state (posix false) runEnv
              "default" "/usr/bin/python3" "" (ExecThrows "Command failed")
              freshState "Command failed" eq_refl)
    as (st' & Hrun & _ & _ & _ & _ & _ & _ & Hfresh).
  exists st'. split; [exact Hrun |]. exact (proj1 (Hfresh eq_refl)).
Defined.

(** C5 as stated fails: a failed extraction on the activated example has
    already put [CC] back and cleared the marker. *)
Lemma activate_failure_mutates_nothing_counterexample :
  let st' :=
    (activateEnvironment (posix false) runEnv "default" "/usr/bin/python3" ""
       (ExecThrows "Command failed") activatedState).1 in
  process_env activatedState !! "CC" = Some "gcc"
  ∧ process_env st' !! "CC" = Some "cc"
  ∧ is_Some (ws_activeEnv activatedState)
  ∧ ws_activeEnv st' = None
  ∧ ¬ (process_env st' = process_env activatedState
       ∧ ws_activeEnv st' = ws_activeEnv activatedState).
Proof.
  simpl. split; [reflexivity |]. split; [reflexivity |].
  split; [eexists; vm_compute; reflexivity |]. split; [reflexivity |].
  intros [_ H]. vm_compute in H. discriminate H.
Qed.

Lemma backupEntry_value (backupEnv : gmap string (option string))
    (env : gmap string string) (key : string) :
  backupEntry backupEnv env key = (key, backupValue backupEnv env key).
Proof. unfold backupEntry, backupValue. by destruct (backupEnv !! key). Qed.

Lemma names_toEnvVars (l : list (string * string)) :
  names (toEnvVars l) = l.*1.
Proof.
  unfold names, toEnvVars. rewrite <- list_fmap_compose.
  by apply list_fmap_ext.
Qed.

(** A successful activation: the restore, the overlay of the parsed
    output, and the rest of the method. *)
Lemma activateEnvironment_Parsed (h : Host) (conanEnv : ConanEnv)
    (configName pythonInterpreter args : string)
    (parsed : list (string * string)) (st : State) :
  ∃ line,
    activateEnvironment h conanEnv configName pythonInterpreter args
      (Parsed parsed) st
    = (applyNewEnv h conanEnv configName (overlayOf h pythonInterpreter parsed)
         (emit (AppendLine line) (restoreEnvironment h st)), inl ()).
Proof. eexists. reflexivity. Qed.

Lemma activateEnvironment_fields (h : Host) (conanEnv : ConanEnv)
    (configName pythonInterpreter args : string)
    (parsed : list (string * string)) (st : State) :
  let st' := (activateEnvironment h conanEnv configName pythonInterpreter args
                (Parsed parsed) st).1 in
  let overlay := toEnvVars (overlayOf h pythonInterpreter parsed) in
  let env1 := process_env (restoreEnvironment h st) in
  process_env st' = applyVars overlay env1
  ∧ ws_backupEnv st'
    = Some ((λ kv, (kv.1, backupValue (Map_of (default [] (ws_backupEnv st)))
                            env1 kv.1)) <$> overlay)
  ∧ ws_activeEnv st'
    = Some (configName, conanEnv, overlayOf h pythonInterpreter parsed).
Proof.
  intros st' overlay env1. subst st'.
  destruct (activateEnvironment_Parsed h conanEnv configName pythonInterpreter
              args parsed st) as [line ->]. simpl fst.
  destruct (restoreEnvironment_fields h st) as (_ & _ & Hb & _).
  destruct (applyNewEnv_fields h conanEnv configName
              (overlayOf h pythonInterpreter parsed)
              (emit (AppendLine line) (restoreEnvironment h st)))
    as (-> & _ & -> & ->).
  cbn [emit process_env ws_backupEnv]. rewrite Hb.
  split; [done |]. split; [| done]. f_equal.
  apply list_fmap_ext. intros i kv _. apply backupEntry_value.
Qed.

(** ** The chain [activate(A); activate(B); restore()] on maps *)

Section Chain.

Variables (M0 : gmap string (option string)) (env1 : gmap string string).
Variables (A B : EnvVars).

(** The environment left by the restore that opens the chain agrees
    with the backup it has applied. *)
Hypothesis applied :
  ∀ k value, M0 !! k = Some value → env1 !! k = restored value.

Local Abbreviation bkA :=
  ((λ kv, (kv.1, backupValue M0 env1 kv.1)) <$> A).
Local Abbreviation env3 := (applyVars bkA (applyVars A env1)).
Local Abbreviation bkB :=
  ((λ kv, (kv.1, backupValue (Map_of bkA) env3 kv.1)) <$> B).

Lemma chain_backupA (k : string) :
  restored (backupValue M0 env1 k) = restored (env1 !! k).
Proof.
  unfold backupValue. destruct (M0 !! k) as [value|] eqn:E; [| done].
  rewrite (applied k value E). by rewrite restored_idemp.
Qed.

Lemma chain_env3 (k : string) :
  k ∈ names A → env3 !! k = restored (env1 !! k).
Proof.
  intros HA. rewrite applyVars_lookup.
  rewrite Map_of_keyed, decide_True by done. apply chain_backupA.
Qed.

Lemma chain_env3_other (k : string) :
  k ∉ names A → env3 !! k = env1 !! k.
Proof.
  intros HA. rewrite applyVars_lookup.
  rewrite Map_of_keyed, decide_False by done. by apply applyVars_other.
Qed.

Lemma chain_lookup (k : string) :
  k ∈ names A ∨ k ∈ names B →
  applyVars bkB (applyVars B env3) !! k = restored (env1 !! k).
Proof.
  intros Hk. rewrite applyVars_lookup.
  rewrite Map_of_keyed. destruct (decide (k ∈ names B)) as [HB|HB].
  - unfold backupValue at 1. rewrite Map_of_keyed.
    destruct (decide (k ∈ names A)) as [HA|HA].
    + apply chain_backupA.
    + by rewrite chain_env3_other.
  - destruct Hk as [HA|]; [| done].
    rewrite applyVars_other by done. by apply chain_env3.
Qed.

End Chain.








(** ** The overlay read from Conan *)

Lemma obj_get_None (o : list (string * string)) (key : string) :
  obj_get o key = None ↔ key ∉ o.*1.
Proof.
  induction o as [|[k v] o IH]; simpl.
  - split; [intros _; apply not_elem_of_nil | done].
  - rewrite not_elem_of_cons. simpl. case_decide as E.
    + split; [done | intros [H _]; congruence].
    + rewrite IH. split; [intros H; split; [congruence | done] |].
      by intros [_ H].
Qed.

Lemma obj_set_absent (o : list (string * string)) (key value : string) :
  key ∉ o.*1 → obj_set key value o = o ++ [(key, value)].
Proof.
  induction o as [|[k v] o IH]; simpl; [done |].
  rewrite not_elem_of_cons. intros [Hne Hnot].
  rewrite decide_False by congruence. by rewrite IH.
Qed.

Lemma obj_set_present (f : string → string) (o : list (string * string))
    (key value : string) :
  NoDup o.*1 → obj_get o key = Some value →
  obj_set key (f value) o
  = (λ kv, if decide (kv.1 = key) then (kv.1, f kv.2) else kv) <$> o.
Proof.
  induction o as [|[k v] o IH]; simpl; [done |].
  rewrite NoDup_cons. intros [Hk Hnd] Hget. case_decide as E.
  - injection Hget as ->. subst k. f_equal.
    clear IH Hnd. induction o as [|[k' v'] o IH]; simpl; [done |].
    apply not_elem_of_cons in Hk as [Hne Hk]. simpl in Hne.
    rewrite decide_False by congruence. f_equal. by apply IH.
  - f_equal. by apply IH.
Qed.

(** When the parsed object has a [PATH] member, the overlay is the parsed
    object with the interpreter's directory and the delimiter put before
    the value of that member, the other members and the order being
    kept. *)
Lemma overlayOf_with_PATH (h : Host) (pythonInterpreter : string)
    (parsed : list (string * string)) (value : string) :
  NoDup parsed.*1 → obj_get parsed "PATH" = Some value →
  overlayOf h pythonInterpreter parsed
  = (λ kv, if decide (kv.1 = "PATH")
           then (kv.1, path_dirname h pythonInterpreter +:+ path_delimiter h
                       +:+ kv.2)
           else kv) <$> parsed.
Proof.
  intros Hnd Hget. unfold overlayOf. rewrite Hget. simpl String_of.
  by apply (obj_set_present
              (λ v, path_dirname h pythonInterpreter +:+ path_delimiter h
                    +:+ v)).
Qed.

(** When it has none, a [PATH] member is added after the parsed ones, and
    its value ends in the text [undefined]. *)
Lemma overlayOf_without_PATH (h : Host) (pythonInterpreter : string)
    (parsed : list (string * string)) :
  obj_get parsed "PATH" = None →
  overlayOf h pythonInterpreter parsed
  = parsed ++ [("PATH", path_dirname h pythonInterpreter +:+ path_delimiter h
                        +:+ "undefined")].
Proof.
  intros Hget. unfold overlayOf. rewrite Hget. simpl String_of.
  apply obj_set_absent. by apply obj_get_None.
Qed.

(** C8. The overlay is to be the parsed object with the interpreter's
    directory put before the value of [PATH]. For an output without a
    [PATH] member, [readEnvFromConan] returns an overlay with a member
    the parsed object does not have: [PATH], set to the interpreter's
    directory, the delimiter and the text [undefined]. *)
Theorem readEnvFromConan_without_PATH :
  (readEnvFromConan (posix false) buildEnv "/usr/bin/python3" ""
     (Parsed [("CC", "gcc")]) freshState).2
  = inl [("CC", "gcc"); ("PATH", "/usr/bin:undefined")]
  ∧ process_env
      (activateEnvironment (posix false) buildEnv "default" "/usr/bin/python3"
         "" (Parsed [("CC", "gcc")]) freshState).1 !! "PATH"
    = Some "/usr/bin:undefined".
Proof. split; reflexivity. Qed.

(** ** The command builder *)

Section Builder.

Import CommandBuilder.

Variable resolve : string → string → string.
Variable others : SubcommandKind → Layout.

Lemma pushField_tokens (workspaceRoot : string) (config : SubcommandConfig)
    (cmd : list string) (ff : string * FolderField) :
  pushField resolve workspaceRoot config cmd ff
  = cmd ++ fieldTokens resolve workspaceRoot config ff.
Proof.
  unfold pushField, fieldTokens.
  destruct (field ff.2 config) as [value|]; simpl.
  - case_bool_decide; simpl; by rewrite ?app_nil_r.
  - by rewrite app_nil_r.
Qed.

Lemma foldl_pushField (workspaceRoot : string) (config : SubcommandConfig)
    (fields : list (string * FolderField)) (cmd : list string) :
  foldl (pushField resolve workspaceRoot config) cmd fields
  = cmd ++ concat (fieldTokens resolve workspaceRoot config <$> fields).
Proof.
  revert cmd. induction fields as [|ff fields IH]; intros cmd; simpl.
  - by rewrite app_nil_r.
  - by rewrite IH, pushField_tokens, <- app_assoc.
Qed.

Lemma fieldTokens_length (workspaceRoot : string) (config : SubcommandConfig)
    (fields : list (string * FolderField)) :
  length (concat (fieldTokens resolve workspaceRoot config <$> fields))
  = 2 * length (filter (λ ff, falsy (field ff.2 config) = false) fields).
Proof.
  induction fields as [|ff fields IH]; [done |].
  rewrite fmap_cons. simpl concat. rewrite length_app, IH.
  unfold fieldTokens at 1. destruct (falsy (field ff.2 config)) eqn:F.
  - rewrite filter_cons_False by (rewrite F; discriminate). done.
  - rewrite filter_cons_True by done. simpl. lia.
Qed.

Lemma string_app_assoc (a b c : string) : (a +:+ b) +:+ c = a +:+ (b +:+ c).
Proof.
  induction a as [|x a IH]; [done |].
  change (String x ((a +:+ b) +:+ c) = String x (a +:+ (b +:+ c))).
  by f_equal.
Qed.

Lemma string_app_nil_r (a : string) : a +:+ "" = a.
Proof.
  induction a as [|x a IH]; [done |].
  change (String x (a +:+ "") = String x a). by f_equal.
Qed.

Lemma join_fieldTokens (workspaceRoot : string) (config : SubcommandConfig)
    (fields : list (string * FolderField)) (first : string) :
  join " " (first :: concat (fieldTokens resolve workspaceRoot config
                               <$> fields))
  = first +:+ concatText (fieldText resolve workspaceRoot config
                            <$> filter (isSet config) fields).
Proof.
  revert first. induction fields as [|ff fields IH]; intros first.
  - simpl. by rewrite string_app_nil_r.
  - rewrite fmap_cons. simpl concat. unfold fieldTokens at 1.
    destruct (falsy (field ff.2 config)) eqn:F.
    + rewrite filter_cons_False by (unfold isSet; congruence). apply IH.
    + rewrite filter_cons_True by done. rewrite fmap_cons.
      change (join " " (first :: ([ff.1;
                resolve workspaceRoot (String_of (field ff.2 config))]
                ++ concat (fieldTokens resolve workspaceRoot config
                             <$> fields))))
        with (first +:+ " " +:+ ff.1 +:+ " "
              +:+ join " " (resolve workspaceRoot
                              (String_of (field ff.2 config))
                            :: concat (fieldTokens resolve workspaceRoot config
                                         <$> fields))).
      rewrite IH. unfold concatText at 2. simpl foldr. unfold fieldText at 2.
      fold (concatText (fieldText resolve workspaceRoot config
                          <$> filter (isSet config) fields)).
      f_equal. by rewrite !string_app_assoc.
Qed.

(** C3. With a recipe set and a kind whose order names no folder twice,
    the command line is the subcommand, a space and the resolved recipe,
    followed, for each optional folder of the kind that is set and in
    the order of the kind, by a space, its flag, a space and its
    resolved path, and by nothing else: every folder that is set is
    there exactly once, a folder that is empty or absent is not there,
    and no other space is written. For package-export the order is
    install, build, package and source folder. *)
Theorem build_renders_set_fields (kind : SubcommandKind)
    (workspaceRoot : string) (config : SubcommandConfig) (recipe : string) :
  conanRecipe config = Some recipe → recipe ≠ "" →
  NoDup (optionalFields (layoutOf others kind)).*2 →
  let entries :=
    filter (isSet config) (optionalFields (layoutOf others kind)) in
  build resolve others kind workspaceRoot config
  = Some (subcommand (layoutOf others kind) +:+ " "
          +:+ resolve workspaceRoot recipe
          +:+ concatText (fieldText resolve workspaceRoot config <$> entries))
  ∧ entries `sublist_of` optionalFields (layoutOf others kind)
  ∧ NoDup entries.*2
  ∧ (∀ ff, ff ∈ optionalFields (layoutOf others kind) →
       (ff ∈ entries ↔ falsy (field ff.2 config) = false))
  ∧ (kind = PackageExport →
     subcommand (layoutOf others kind) = "export-pkg"
     ∧ optionalFields (layoutOf others kind)
       = [("-if", InstallFolder); ("-bf", BuildFolder);
          ("-pf", PackageFolder); ("-sf", SourceFolder)]).
Proof.
  intros Hrecipe Hne Hnd entries.
  assert (entries `sublist_of` optionalFields (layoutOf others kind)) as Hsub
    by apply sublist_filter.
  split; [| split; [done |]; split; [| split]].
  - unfold build. rewrite Hrecipe, bool_decide_eq_false_2 by done.
    rewrite foldl_pushField. f_equal.
    change (join " " ([subcommand (layoutOf others kind);
                       resolve workspaceRoot recipe]
                      ++ concat (fieldTokens resolve workspaceRoot config
                                   <$> optionalFields (layoutOf others kind))))
      with (subcommand (layoutOf others kind) +:+ " "
            +:+ join " " (resolve workspaceRoot recipe
                          :: concat (fieldTokens resolve workspaceRoot config
                                       <$> optionalFields
                                             (layoutOf others kind)))).
    by rewrite join_fieldTokens.
  - pose proof (fmap_sublist snd _ _ Hsub) as Hs.
    eapply sublist_NoDup; eassumption.
  - intros ff Hin. subst entries. rewrite list_elem_of_filter. unfold isSet.
    tauto.
  - by intros ->.
Qed.

(** C4. Whatever the kind, the workspace root and the other fields, a
    recipe that is missing or empty makes [build] return [absent]; and
    [absent] is returned in no other case, every other input yielding a
    command. *)
Theorem build_absent_without_recipe (kind : SubcommandKind)
    (workspaceRoot : string) (config : SubcommandConfig) :
  (conanRecipe config = None ∨ conanRecipe config = Some "" →
   build resolve others kind workspaceRoot config = None)
  ∧ (build resolve others kind workspaceRoot config = None
     ∨ ∃ cmd, build resolve others kind workspaceRoot config = Some cmd)
  ∧ (build resolve others kind workspaceRoot config = None →
     conanRecipe config = None ∨ conanRecipe config = Some "").
Proof.
  unfold build. destruct (conanRecipe config) as [recipe|]; simpl.
  - case_bool_decide as E.
    + subst. split; [done |]. split; [by left | by right].
    + split; [intros [H|H]; congruence |]. split; [right; eauto | done].
  - split; [done |]. split; [by left | by left].
Qed.

End Builder.

(** The six tests of [buildCommandPackageExport], on POSIX paths. *)
Example test_standard_value :
  CommandBuilder.build CommandBuilder.posix_resolve
    (λ _, CommandBuilder.packageExportLayout) CommandBuilder.PackageExport
    "/home/user/ws" CommandBuilder.defaultPackageExport
  = Some ("export-pkg /home/user/ws/conanfile.py -if /home/user/ws/install"
          +:+ " -bf /home/user/ws/build -pf /home/user/ws/package"
          +:+ " -sf /home/user/ws/source").
Proof. reflexivity. Qed.

Example test_missing_recipe :
  CommandBuilder.build CommandBuilder.posix_resolve
    (λ _, CommandBuilder.packageExportLayout) CommandBuilder.PackageExport
    "/home/user/ws" CommandBuilder.withoutRecipe
  = None.
Proof. reflexivity. Qed.

Example test_without_install_folder :
  CommandBuilder.build CommandBuilder.posix_resolve
    (λ _, CommandBuilder.packageExportLayout) CommandBuilder.PackageExport
    "/home/user/ws" CommandBuilder.withoutInstall
  = Some ("export-pkg /home/user/ws/conanfile.py -bf /home/user/ws/build"
          +:+ " -pf /home/user/ws/package -sf /home/user/ws/source").
Proof. reflexivity. Qed.

Example test_without_build_folder :
  CommandBuilder.build CommandBuilder.posix_resolve
    (λ _, CommandBuilder.packageExportLayout) CommandBuilder.PackageExport
    "/home/user/ws" CommandBuilder.withoutInstallBuild
  = Some ("export-pkg /home/user/ws/conanfile.py -pf /home/user/ws/package"
          +:+ " -sf /home/user/ws/source").
Proof. reflexivity. Qed.

Example test_without_source_folder :
  CommandBuilder.build CommandBuilder.posix_resolve
    (λ _, CommandBuilder.packageExportLayout) CommandBuilder.PackageExport
    "/home/user/ws" CommandBuilder.packageOnly
  = Some "export-pkg /home/user/ws/conanfile.py -pf /home/user/ws/package".
Proof. reflexivity. Qed.

Example test_without_package_folder :
  CommandBuilder.build CommandBuilder.posix_resolve
    (λ _, CommandBuilder.packageExportLayout) CommandBuilder.PackageExport
    "/home/user/ws" CommandBuilder.recipeOnly
  = Some "export-pkg /home/user/ws/conanfile.py".
Proof. reflexivity. Qed.

Lemma build_renders_set_fields_witness :
  CommandBuilder.build CommandBuilder.posix_resolve
    (λ _, CommandBuilder.packageExportLayout) CommandBuilder.PackageExport
    "/home/user/ws" CommandBuilder.withoutInstall
  = Some ("export-pkg /home/user/ws/conanfile.py -bf /home/user/ws/build"
          +:+ " -pf /home/user/ws/package -sf /home/user/ws/source")
  ∧ CommandBuilder.build CommandBuilder.posix_resolve
      (λ _, CommandBuilder.packageExportLayout) CommandBuilder.PackageExport
      "/home/user/ws" CommandBuilder.defaultPackageExport
    = Some ("export-pkg /home/user/ws/conanfile.py -if /home/user/ws/install"
            +:+ " -bf /home/user/ws/build -pf /home/user/ws/package"
            +:+ " -sf /home/user/ws/source").
Proof.
  assert (NoDup (CommandBuilder.optionalFields
                   (CommandBuilder.layoutOf
                      (λ _, CommandBuilder.packageExportLayout)
                      CommandBuilder.PackageExport)).*2) as Hnd
    by (apply (bool_decide_unpack _); vm_compute; exact I).
  split.
  - exact (proj1 (build_renders_set_fields CommandBuilder.posix_resolve
                    (λ _, CommandBuilder.packageExportLayout)
                    CommandBuilder.PackageExport "/home/user/ws"
                    CommandBuilder.withoutInstall "conanfile.py" eq_refl
                    ltac:(discriminate) Hnd)).
  - exact (proj1 (build_renders_set_fields CommandBuilder.posix_resolve
                    (λ _, CommandBuilder.packageExportLayout)
                    CommandBuilder.PackageExport "/home/user/ws"
                    CommandBuilder.defaultPackageExport "conanfile.py" eq_refl
                    ltac:(discriminate) Hnd)).
Defined.

Lemma build_absent_without_recipe_witness :
  CommandBuilder.build CommandBuilder.posix_resolve
    (λ _, CommandBuilder.packageExportLayout) CommandBuilder.PackageExport
    "/home/user/ws" CommandBuilder.withoutRecipe
  = None.
Proof.
  exact (proj1 (build_absent_without_recipe CommandBuilder.posix_resolve
                  (λ _, CommandBuilder.packageExportLayout)
                  CommandBuilder.PackageExport "/home/user/ws"
                  CommandBuilder.withoutRecipe) (or_intror eq_refl)).
Defined.

(** * Further properties of the overlay manager *)

(** ** The overlay of a parsed output *)

Lemma obj_get_set_eq (o : list (string * string)) (key value : string) :
  obj_get (obj_set key value o) key = Some value.
Proof.
  induction o as [|[k v] o IH]; simpl.
  - by rewrite decide_True.
  - destruct (decide (k = key)) as [E|E]; simpl.
    + by rewrite decide_True.
    + by rewrite decide_False.
Qed.

Lemma obj_get_set_ne (o : list (string * string)) (key value k : string) :
  k ≠ key → obj_get (obj_set key value o) k = obj_get o k.
Proof.
  intros Hne. induction o as [|[k' v'] o IH]; simpl.
  - by rewrite decide_False.
  - destruct (decide (k' = key)) as [E|E]; simpl.
    + subst k'. by rewrite !decide_False by congruence.
    + by rewrite IH.
Qed.

Lemma obj_set_keys (o : list (string * string)) (key value : string) :
  (obj_set key value o).*1
  = if decide (key ∈ o.*1) then o.*1 else o.*1 ++ [key].
Proof.
  induction o as [|[k v] o IH]; [done |].
  simpl obj_set. destruct (decide (k = key)) as [E|E];
    rewrite !fmap_cons; cbn [fst].
  - subst k. rewrite decide_True; [done | by left].
  - rewrite IH. destruct (decide (key ∈ o.*1)) as [H|H].
    + rewrite decide_True; [done | by right].
    + rewrite decide_False; [done |]. rewrite elem_of_cons.
      intros [Hk|Hk]; [congruence | done].
Qed.

Lemma overlayOf_NoDup (h : Host) (pythonInterpreter : string)
    (parsed : list (string * string)) :
  NoDup parsed.*1 → NoDup (overlayOf h pythonInterpreter parsed).*1.
Proof.
  intros Hnd. unfold overlayOf. rewrite obj_set_keys.
  case_decide as E; [done |].
  apply NoDup_app. split; [done |]. split; [| apply NoDup_singleton].
  intros k Hk Hin. apply list_elem_of_singleton in Hin. by subst.
Qed.

(** The overlay always has a [PATH] member, whose value is the
    interpreter's directory, the delimiter and what [parsed.PATH] reads
    as; every other name has the member the parsed output has for it, or
    none; and the names stay distinct. *)
Theorem overlayOf_members (h : Host) (pythonInterpreter : string)
    (parsed : list (string * string)) :
  obj_get (overlayOf h pythonInterpreter parsed) "PATH"
  = Some (path_dirname h pythonInterpreter +:+ path_delimiter h
          +:+ String_of (obj_get parsed "PATH"))
  ∧ (∀ k, k ≠ "PATH" →
       obj_get (overlayOf h pythonInterpreter parsed) k = obj_get parsed k)
  ∧ (NoDup parsed.*1 → NoDup (overlayOf h pythonInterpreter parsed).*1).
Proof.
  split; [apply obj_get_set_eq |].
  split; [intros k Hk; by apply obj_get_set_ne |].
  apply overlayOf_NoDup.
Qed.

Lemma overlayOf_with_PATH_witness :
  overlayOf (posix false) "/usr/bin/python3" parsedBuild
  = [("PATH", "/usr/bin:/opt/conan/bin"); ("CC", "gcc")].
Proof.
  refine (overlayOf_with_PATH (posix false) "/usr/bin/python3" parsedBuild
            "/opt/conan/bin" _ eq_refl).
  apply (bool_decide_unpack _). vm_compute. exact I.
Defined.

(** ** Applying a list of pairs *)

Lemma Map_of_last (before after : EnvVars) (k : string)
    (value : option string) :
  k ∉ names after → Map_of (before ++ (k, value) :: after) !! k = Some value.
Proof.
  induction after as [|kv after IH] using rev_ind; intros Hk.
  - rewrite Map_of_snoc. simpl. apply lookup_insert_eq.
  - unfold names in Hk. rewrite fmap_app, not_elem_of_app in Hk.
    destruct Hk as [Hk Hkv]. simpl in Hkv.
    rewrite list_elem_of_singleton in Hkv.
    replace (before ++ (k, value) :: after ++ [kv])
      with ((before ++ (k, value) :: after) ++ [kv])
      by (by rewrite <- app_assoc).
    rewrite Map_of_snoc, lookup_insert_ne by congruence. by apply IH.
Qed.

(** The last pair a list has for a name the operating system accepts
    decides how the name reads after [updateVSCodeEnvironment], in
    [process.env] and in the collection: as the value of the pair, or as
    unset when that value is absent or empty. A name the list does not
    have reads as before. *)
Theorem updateVSCodeEnvironment_last_wins (h : Host) (data : EnvVars)
    (st : State) (k : string) :
  (∀ before after value,
      validName k →
      data = before ++ (k, value) :: after → k ∉ names after →
      process_env (updateVSCodeEnvironment h data st) !! k = restored value
      ∧ environmentVariableCollection (updateVSCodeEnvironment h data st) !! k
        = restored value)
  ∧ (k ∉ names data →
     process_env (updateVSCodeEnvironment h data st) !! k = process_env st !! k
     ∧ environmentVariableCollection (updateVSCodeEnvironment h data st) !! k
       = environmentVariableCollection st !! k).
Proof.
  destruct (updateVSCodeEnvironment_lookup h data st k) as [-> ->].
  split.
  - intros before after value _ -> Hk. by rewrite Map_of_last.
  - intros Hk. apply Map_of_None in Hk. by rewrite Hk.
Qed.

Lemma updateVSCodeEnvironment_last_wins_witness :
  process_env
    (updateVSCodeEnvironment (posix false)
       [("CC", Some "gcc"); ("CC", Some ""); ("CXX", Some "g++")]
       freshState) !! "CC" = None
  ∧ process_env
      (updateVSCodeEnvironment (posix false)
         [("CC", Some "gcc"); ("CC", Some ""); ("CXX", Some "g++")]
         freshState) !! "PATH" = Some "/usr/bin:/bin".
Proof.
  destruct (updateVSCodeEnvironment_last_wins (posix false)
              [("CC", Some "gcc"); ("CC", Some ""); ("CXX", Some "g++")]
              freshState "CC") as [Hlast _].
  destruct (updateVSCodeEnvironment_last_wins (posix false)
              [("CC", Some "gcc"); ("CC", Some ""); ("CXX", Some "g++")]
              freshState "PATH") as [_ Hother].
  assert (validName "CC") as Hv by (split; [discriminate | reflexivity]).
  split.
  - refine (proj1 (Hlast [("CC", Some "gcc")] [("CXX", Some "g++")] (Some "")
                     Hv eq_refl _)).
    apply (bool_decide_unpack _). vm_compute. exact I.
  - refine (proj1 (Hother _)).
    apply (bool_decide_unpack _). vm_compute. exact I.
Defined.

Lemma applyVars_idemp (data : EnvVars) (m : gmap string string) :
  applyVars data (applyVars data m) = applyVars data m.
Proof.
  apply map_eq. intros k. rewrite !applyVars_lookup.
  by destruct (Map_of data !! k).
Qed.

(** Applying the same list a second time changes neither [process.env] nor
    the collection. *)
Theorem updateVSCodeEnvironment_twice (h : Host) (data : EnvVars) (st : State) :
  process_env (updateVSCodeEnvironment h data (updateVSCodeEnvironment h data st))
  = process_env (updateVSCodeEnvironment h data st)
  ∧ environmentVariableCollection
      (updateVSCodeEnvironment h data (updateVSCodeEnvironment h data st))
    = environmentVariableCollection (updateVSCodeEnvironment h data st).
Proof.
  destruct (updateVSCodeEnvironment_fields h data
              (updateVSCodeEnvironment h data st)) as (-> & -> & _).
  destruct (updateVSCodeEnvironment_fields h data st) as (-> & -> & _).
  by rewrite !applyVars_idemp.
Qed.

(** After [updateVSCodeEnvironment], [process.env] and the collection hold
    the same value, or both none, for every name of the list that the
    operating system accepts. *)
Theorem updateVSCodeEnvironment_in_step (h : Host) (data : EnvVars)
    (st : State) (k : string) :
  validName k →
  k ∈ names data →
  process_env (updateVSCodeEnvironment h data st) !! k
  = environmentVariableCollection (updateVSCodeEnvironment h data st) !! k.
Proof.
  intros _ Hk. destruct (updateVSCodeEnvironment_lookup h data st k) as [-> ->].
  destruct (Map_of data !! k) eqn:E; [done |].
  by apply Map_of_None in E.
Qed.

Lemma updateVSCodeEnvironment_in_step_witness :
  process_env
    (updateVSCodeEnvironment (posix false) [("CC", Some "gcc")] freshState)
    !! "CC"
  = environmentVariableCollection
      (updateVSCodeEnvironment (posix false) [("CC", Some "gcc")] freshState)
      !! "CC".
Proof.
  assert (validName "CC") as Hv by (split; [discriminate | reflexivity]).
  apply (updateVSCodeEnvironment_in_step (posix false) [("CC", Some "gcc")]
           freshState "CC" Hv).
  apply list_elem_of_here.
Defined.

(** ** Restoring twice, and restoring after an activation *)

(** A second [restoreEnvironment] finds nothing left to change: the live
    environment, the collection and the two records are as the first one
    left them, and the two agree on every name of the backup. *)
Theorem restoreEnvironment_twice (h : Host) (st : State) :
  process_env (restoreEnvironment h (restoreEnvironment h st))
  = process_env (restoreEnvironment h st)
  ∧ environmentVariableCollection
      (restoreEnvironment h (restoreEnvironment h st))
    = environmentVariableCollection (restoreEnvironment h st)
  ∧ ws_backupEnv (restoreEnvironment h (restoreEnvironment h st))
    = ws_backupEnv (restoreEnvironment h st)
  ∧ ws_activeEnv (restoreEnvironment h (restoreEnvironment h st))
    = ws_activeEnv (restoreEnvironment h st)
  ∧ ∀ k, k ∈ names (default [] (ws_backupEnv st)) →
      process_env (restoreEnvironment h st) !! k
      = environmentVariableCollection (restoreEnvironment h st) !! k.
Proof.
  destruct (restoreEnvironment_fields h (restoreEnvironment h st))
    as (-> & -> & -> & ->).
  destruct (restoreEnvironment_fields h st) as (-> & -> & -> & ->).
  rewrite !applyVars_idemp. repeat (split; [done |]).
  intros k Hk. rewrite !applyVars_lookup.
  destruct (Map_of (default [] (ws_backupEnv st)) !! k) eqn:E; [done |].
  by apply Map_of_None in E.
Qed.

Lemma restore_after_failure (h : Host) (conanEnv : ConanEnv)
    (configName pythonInterpreter args : string) (out : Extraction)
    (st : State) :
  extractionError out ≠ None →
  process_env
    (restoreEnvironment h
       (activateEnvironment h conanEnv configName pythonInterpreter args
          out st).1)
  = process_env (restoreEnvironment h st).
Proof.
  intros Hout.
  destruct (restoreEnvironment_fields h
              (activateEnvironment h conanEnv configName pythonInterpreter
                 args out st).1) as (-> & _).
  destruct (restoreEnvironment_fields h st) as (E1 & _ & E3 & _).
  unfold activateEnvironment.
  set (st1 := restoreEnvironment h st) in *. clearbody st1.
  destruct out as [m|m|parsed]; [| | done]; simpl;
    rewrite E3, E1; apply applyVars_idemp.
Qed.

Lemma restore_after_success (h : Host) (conanEnv : ConanEnv)
    (configName pythonInterpreter args : string)
    (parsed : list (string * string)) (st : State) (k : string) :
  process_env
    (restoreEnvironment h
       (activateEnvironment h conanEnv configName pythonInterpreter args
          (Parsed parsed) st).1) !! k
  = if decide (k ∈ (overlayOf h pythonInterpreter parsed).*1)
    then restored (process_env (restoreEnvironment h st) !! k)
    else process_env (restoreEnvironment h st) !! k.
Proof.
  destruct (activateEnvironment_fields h conanEnv configName pythonInterpreter
              args parsed st) as (EA & BA & _).
  rewrite restoreEnvironment_lookup, BA, EA. simpl default.
  rewrite Map_of_keyed, names_toEnvVars.
  destruct (decide (k ∈ (overlayOf h pythonInterpreter parsed).*1)) as [Hk|Hk].
  - apply chain_backupA. intros k' value Hv.
    rewrite restoreEnvironment_lookup. by rewrite Hv.
  - apply applyVars_other. by rewrite names_toEnvVars.
Qed.

Lemma restore_after_perform (h : Host) (op : Operation) (st : State)
    (k : string) :
  process_env (restoreEnvironment h (perform h st op)) !! k
  = if decide (k ∈ touchedBy h op)
    then restored (process_env (restoreEnvironment h st) !! k)
    else process_env (restoreEnvironment h st) !! k.
Proof.
  destruct op as [[conanEnv configName py args out]|];
    unfold perform, touchedBy;
    cbn [act_conanEnv act_configName act_pythonInterpreter act_args act_out].
  - destruct out as [m|m|parsed].
    + rewrite restore_after_failure by done.
      rewrite decide_False; [done | apply not_elem_of_nil].
    + rewrite restore_after_failure by done.
      rewrite decide_False; [done | apply not_elem_of_nil].
    + apply restore_after_success.
  - destruct (restoreEnvironment_fields h (restoreEnvironment h st))
      as (-> & _).
    destruct (restoreEnvironment_fields h st) as (-> & _ & -> & _).
    rewrite applyVars_idemp.
    rewrite decide_False; [done | apply not_elem_of_nil].
Qed.

Lemma restore_after_performAll (h : Host) (ops : list Operation)
    (st : State) (k : string) :
  process_env (restoreEnvironment h (performAll h ops st)) !! k
  = if decide (k ∈ touched h ops)
    then restored (process_env (restoreEnvironment h st) !! k)
    else process_env (restoreEnvironment h st) !! k.
Proof.
  revert st. induction ops as [|op ops IH]; intros st.
  - done.
  - unfold performAll, touched in *. simpl foldl. rewrite IH.
    rewrite restore_after_perform.
    destruct (decide (k ∈ (op :: ops) ≫= touchedBy h)) as [H3|H3];
      rewrite bind_cons, elem_of_app in H3;
      destruct (decide (k ∈ touchedBy h op)) as [H1|H1];
      destruct (decide (k ∈ ops ≫= touchedBy h)) as [H2|H2];
      try tauto; try done.
    apply restored_idemp.
Qed.

(** Started with no backup in the store and with none of the touched
    variables set to the empty string, any sequence of activations and
    restores that ends with a restore leaves [process.env] as it was at
    the start. *)
Theorem sequence_round_trip (h : Host) (ops : list Operation) (st : State) :
  ws_backupEnv st = None →
  (∀ k, k ∈ touched h ops → process_env st !! k ≠ Some "") →
  process_env (restoreEnvironment h (performAll h ops st)) = process_env st.
Proof.
  intros Hb Hne. apply map_eq. intros k.
  rewrite restore_after_performAll.
  destruct (restoreEnvironment_fields h st) as (-> & _). rewrite Hb.
  simpl default. unfold applyVars. simpl foldl.
  case_decide as Hk; [| done].
  specialize (Hne k Hk). unfold restored, falsy.
  destruct (process_env st !! k) as [s|]; [| done].
  destruct (bool_decide (s = "")) eqn:E; [| done].
  apply bool_decide_eq_true in E. congruence.
Qed.

Lemma sequence_round_trip_witness :
  process_env (restoreEnvironment (posix true)
                 (performAll (posix true) exampleOperations freshState))
  = process_env freshState.
Proof.
  apply (sequence_round_trip (posix true) exampleOperations freshState eq_refl).
  apply Forall_forall, (bool_decide_unpack _). vm_compute. exact I.
Defined.

(** ** The state an activation leaves *)

Lemma activateEnvironment_collection (h : Host) (conanEnv : ConanEnv)
    (configName pythonInterpreter args : string)
    (parsed : list (string * string)) (st : State) :
  environmentVariableCollection
    (activateEnvironment h conanEnv configName pythonInterpreter args
       (Parsed parsed) st).1
  = applyVars (toEnvVars (overlayOf h pythonInterpreter parsed))
      (environmentVariableCollection (restoreEnvironment h st)).
Proof.
  destruct (activateEnvironment_Parsed h conanEnv configName pythonInterpreter
              args parsed st) as [line ->]. simpl fst.
  by destruct (applyNewEnv_fields h conanEnv configName
                 (overlayOf h pythonInterpreter parsed)
                 (emit (AppendLine line) (restoreEnvironment h st)))
    as (_ & -> & _).
Qed.

Lemma Map_of_member (l : list (string * string)) (k v : string) :
  NoDup l.*1 → (k, v) ∈ l → Map_of (toEnvVars l) !! k = Some (Some v).
Proof.
  intros Hnd Hin. apply list_elem_of_split in Hin as (before & after & ->).
  rewrite fmap_app, fmap_cons in Hnd. apply NoDup_app in Hnd as (_ & _ & Hnd).
  apply NoDup_cons in Hnd as [Hk _]. unfold toEnvVars.
  rewrite fmap_app, fmap_cons. apply Map_of_last.
  unfold names. rewrite <- list_fmap_compose.
  by replace (fst ∘ (λ kv : string * string, (kv.1, Some kv.2)))
    with (@fst string string) by done.
Qed.

(** A successful activation persists the marker with the overlay and a
    backup under the names of the overlay; every member of the overlay
    whose name the operating system accepts then reads in [process.env]
    and in the collection as the overlay has it, an empty member as
    unset; and a name outside the overlay reads as
    the restore that opens the activation left it. *)
Theorem activation_applies_overlay (h : Host) (conanEnv : ConanEnv)
    (configName pythonInterpreter args : string)
    (parsed : list (string * string)) (st : State) :
  NoDup parsed.*1 →
  let st' := (activateEnvironment h conanEnv configName pythonInterpreter args
                (Parsed parsed) st).1 in
  let overlay := overlayOf h pythonInterpreter parsed in
  ws_activeEnv st' = Some (configName, conanEnv, overlay)
  ∧ names <$> ws_backupEnv st' = Some overlay.*1
  ∧ (∀ k v, validName k → (k, v) ∈ overlay →
       process_env st' !! k = restored (Some v)
       ∧ environmentVariableCollection st' !! k = restored (Some v))
  ∧ (∀ k, k ∉ overlay.*1 →
       process_env st' !! k = process_env (restoreEnvironment h st) !! k).
Proof.
  intros Hnd st' overlay.
  destruct (activateEnvironment_fields h conanEnv configName pythonInterpreter
              args parsed st) as (EA & BA & MA).
  pose proof (activateEnvironment_collection h conanEnv configName
                pythonInterpreter args parsed st) as CA.
  fold st' in EA, BA, MA, CA. fold overlay in EA, BA, MA, CA.
  split; [done |]. split.
  - rewrite BA. simpl. f_equal. unfold names.
    rewrite <- list_fmap_compose. apply names_toEnvVars.
  - split.
    + intros k v _ Hin. rewrite EA, CA, !applyVars_lookup.
      rewrite (Map_of_member overlay k v); [done | | done].
      by apply overlayOf_NoDup.
    + intros k Hk. rewrite EA. apply applyVars_other.
      by rewrite names_toEnvVars.
Qed.

Lemma activation_applies_overlay_witness :
  process_env activatedState !! "PATH" = Some "/usr/bin:/opt/conan/bin"
  ∧ environmentVariableCollection activatedState !! "CC" = Some "gcc".
Proof.
  assert (NoDup parsedBuild.*1) as Hnd
    by (apply (bool_decide_unpack _); vm_compute; exact I).
  destruct (activation_applies_overlay (posix false) buildEnv "default"
              "/usr/bin/python3" "" parsedBuild freshState Hnd)
    as (_ & _ & Hin & _).
  split.
  - assert (validName "PATH") as Hv by (split; [discriminate | reflexivity]).
    exact (proj1 (Hin "PATH" "/usr/bin:/opt/conan/bin" Hv
                    (list_elem_of_here _ _))).
  - assert (validName "CC") as Hv by (split; [discriminate | reflexivity]).
    exact (proj2 (Hin "CC" "gcc" Hv
                    (list_elem_of_further _ _ _ (list_elem_of_here _ _)))).
Defined.

(** After the restart that ends an activation, the constructor of the new
    extension host, whatever environment it has inherited, gives every
    name of the persisted overlay the value it had in the host that
    activated it. *)
Theorem constructor_after_restart (h : Host) (conanEnv : ConanEnv)
    (configName pythonInterpreter args : string)
    (parsed : list (string * string)) (st restarted : State) (k : string) :
  let st' := (activateEnvironment h conanEnv configName pythonInterpreter args
                (Parsed parsed) st).1 in
  ws_activeEnv restarted = ws_activeEnv st' →
  k ∈ (overlayOf h pythonInterpreter parsed).*1 →
  process_env (constructor h restarted) !! k = process_env st' !! k
  ∧ environmentVariableCollection (constructor h restarted) !! k
    = environmentVariableCollection st' !! k.
Proof.
  intros st' Hmarker Hk.
  destruct (activateEnvironment_fields h conanEnv configName pythonInterpreter
              args parsed st) as (EA & _ & MA).
  pose proof (activateEnvironment_collection h conanEnv configName
                pythonInterpreter args parsed st) as CA.
  fold st' in EA, MA, CA. rewrite MA in Hmarker.
  unfold constructor, activeEnv. rewrite Hmarker. simpl snd.
  destruct (updateVSCodeEnvironment_lookup h
              (toEnvVars (overlayOf h pythonInterpreter parsed)) restarted k)
    as [-> ->].
  rewrite EA, CA, !applyVars_lookup.
  destruct (Map_of (toEnvVars (overlayOf h pythonInterpreter parsed)) !! k)
    eqn:E; [done |].
  apply Map_of_None in E. by rewrite names_toEnvVars in E.
Qed.

Lemma constructor_after_restart_witness :
  process_env (constructor (posix false) restartedState) !! "CC"
  = process_env activatedState !! "CC".
Proof.
  exact (proj1 (constructor_after_restart (posix false) buildEnv "default"
                  "/usr/bin/python3" "" parsedBuild freshState restartedState
                  "CC" eq_refl
                  (list_elem_of_further _ _ _ (list_elem_of_here _ _)))).
Defined.

(** ** The mirror file and the file system *)

Lemma updateDotEnvFile_files (h : Host) (data : EnvVars) (st : State) :
  files (updateDotEnvFile h data st)
  = match selectWorkspace h with
    | Some ws =>
        if isUpdateDotEnv h
        then <[path_join h ws ".env" := dotenv_content data]> (files st)
        else files st
    | None => files st
    end.
Proof.
  unfold updateDotEnvFile. by destruct (isUpdateDotEnv h), (selectWorkspace h).
Qed.

Lemma updateVSCodeEnvironment_files (h : Host) (data : EnvVars) (st : State) :
  files (updateVSCodeEnvironment h data st)
  = files (updateDotEnvFile h data st).
Proof.
  unfold updateVSCodeEnvironment. rewrite !updateDotEnvFile_files.
  by destruct (foldl_applyPair_fields data st) as (_ & _ & _ & _ & ->).
Qed.

Lemma restoreEnvironment_files (h : Host) (st : State) :
  files (restoreEnvironment h st)
  = files (updateDotEnvFile h []
             (match ws_backupEnv st with
              | Some backupEnv => updateDotEnvFile h backupEnv st
              | None => st
              end)).
Proof.
  unfold restoreEnvironment. simpl. rewrite !updateDotEnvFile_files.
  destruct (ws_backupEnv st); [| done].
  by rewrite updateVSCodeEnvironment_files.
Qed.

Lemma applyNewEnv_files (h : Host) (conanEnv : ConanEnv) (configName : string)
    (newenv : list (string * string)) (st : State) :
  files (applyNewEnv h conanEnv configName newenv st)
  = files (updateDotEnvFile h (toEnvVars newenv) st).
Proof.
  unfold applyNewEnv. destruct (remoteName h); simpl;
    by rewrite updateVSCodeEnvironment_files, !updateDotEnvFile_files.
Qed.

Lemma files_after_failure (h : Host) (conanEnv : ConanEnv)
    (configName pythonInterpreter args : string) (out : Extraction)
    (st : State) :
  extractionError out ≠ None →
  files (activateEnvironment h conanEnv configName pythonInterpreter args
           out st).1
  = files (restoreEnvironment h st).
Proof.
  intros Hout. unfold activateEnvironment.
  set (st1 := restoreEnvironment h st). clearbody st1.
  by destruct out.
Qed.

Lemma files_after_success (h : Host) (conanEnv : ConanEnv)
    (configName pythonInterpreter args : string)
    (parsed : list (string * string)) (st : State) :
  files (activateEnvironment h conanEnv configName pythonInterpreter args
           (Parsed parsed) st).1
  = files (updateDotEnvFile h
             (toEnvVars (overlayOf h pythonInterpreter parsed))
             (restoreEnvironment h st)).
Proof.
  destruct (activateEnvironment_Parsed h conanEnv configName pythonInterpreter
              args parsed st) as [line ->]. simpl fst.
  rewrite applyNewEnv_files. by rewrite !updateDotEnvFile_files.
Qed.

(** With the setting on and a workspace selected, the [.env] file holds
    the lines of the overlay after a successful activation, and is empty
    after a restore and after an activation whose extraction failed. *)
Theorem mirror_follows_overlay (h : Host) (ws : string) (st : State) :
  isUpdateDotEnv h = true → selectWorkspace h = Some ws →
  (∀ conanEnv configName pythonInterpreter args parsed,
      files (activateEnvironment h conanEnv configName pythonInterpreter args
               (Parsed parsed) st).1 !! path_join h ws ".env"
      = Some (dotenv_content
                (toEnvVars (overlayOf h pythonInterpreter parsed))))
  ∧ files (restoreEnvironment h st) !! path_join h ws ".env" = Some ""
  ∧ (∀ conanEnv configName pythonInterpreter args out,
        extractionError out ≠ None →
        files (activateEnvironment h conanEnv configName pythonInterpreter
                 args out st).1 !! path_join h ws ".env"
        = Some "").
Proof.
  intros Hon Hws.
  assert (files (restoreEnvironment h st) !! path_join h ws ".env" = Some "")
    as Hrestore.
  { rewrite restoreEnvironment_files, updateDotEnvFile_files, Hws, Hon.
    apply lookup_insert_eq. }
  split; [| split; [done |]].
  - intros. rewrite files_after_success, updateDotEnvFile_files, Hws, Hon.
    apply lookup_insert_eq.
  - intros. by rewrite files_after_failure.
Qed.

Lemma mirror_follows_overlay_witness :
  files (activateEnvironment (posix true) buildEnv "default"
           "/usr/bin/python3" "" (Parsed parsedEmptyMember)
           inactiveWithDotEnv).1 !! "/home/user/ws/.env"
  = Some ("PATH=/usr/bin:/opt/conan/bin" +:+ newline +:+ "CFLAGS=")
  ∧ files (restoreEnvironment (posix true) inactiveWithDotEnv)
      !! "/home/user/ws/.env" = Some "".
Proof.
  destruct (mirror_follows_overlay (posix true) "/home/user/ws"
              inactiveWithDotEnv eq_refl eq_refl) as (Hact & Hres & _).
  split; [| exact Hres].
  exact (Hact buildEnv "default" "/usr/bin/python3" "" parsedEmptyMember).
Defined.





(** ** The calls made, in order *)

Lemma applyPair_trace (st : State) (kv : string * option string) :
  trace (applyPair st kv) = trace st ++ pairEffects kv.
Proof.
  unfold applyPair, pairEffects. destruct (falsy kv.2); simpl;
    by rewrite <- app_assoc.
Qed.

Lemma foldl_applyPair_trace (data : EnvVars) (st : State) :
  trace (foldl applyPair st data)
  = trace st ++ concat (pairEffects <$> data).
Proof.
  revert st. induction data as [|kv data IH]; intros st; simpl.
  - by rewrite app_nil_r.
  - by rewrite IH, applyPair_trace, <- app_assoc.
Qed.

Lemma updateDotEnvFile_trace (h : Host) (data : EnvVars) (st : State) :
  trace (updateDotEnvFile h data st) = trace st ++ mirrorEffects h data.
Proof.
  unfold updateDotEnvFile, mirrorEffects.
  destruct (isUpdateDotEnv h), (selectWorkspace h); simpl;
    by rewrite ?app_nil_r.
Qed.

Lemma updateVSCodeEnvironment_trace (h : Host) (data : EnvVars) (st : State) :
  trace (updateVSCodeEnvironment h data st)
  = trace st ++ concat (pairEffects <$> data) ++ mirrorEffects h data.
Proof.
  unfold updateVSCodeEnvironment.
  by rewrite updateDotEnvFile_trace, foldl_applyPair_trace, <- app_assoc.
Qed.

Lemma restoreEnvironment_trace (h : Host) (st : State) :
  trace (restoreEnvironment h st)
  = trace st
    ++ match ws_backupEnv st with
       | Some backupEnv =>
           concat (pairEffects <$> backupEnv) ++ mirrorEffects h backupEnv
       | None => []
       end
    ++ mirrorEffects h [] ++ [StateUpdateActiveEnv None].
Proof.
  unfold restoreEnvironment. simpl. rewrite updateDotEnvFile_trace.
  destruct (ws_backupEnv st) as [backupEnv|].
  - rewrite updateVSCodeEnvironment_trace. by rewrite <- !app_assoc.
  - by rewrite <- !app_assoc.
Qed.

Lemma activateEnvironment_trace (h : Host) (conanEnv : ConanEnv)
    (configName pythonInterpreter args : string)
    (parsed : list (string * string)) (st : State) :
  let st' := (activateEnvironment h conanEnv configName pythonInterpreter args
                (Parsed parsed) st).1 in
  let overlay := overlayOf h pythonInterpreter parsed in
  ∃ backupEnv,
    ws_backupEnv st' = Some backupEnv
    ∧ trace st'
      = trace (restoreEnvironment h st)
        ++ [AppendLine
              (LineExecuting
                 (pythonInterpreter +:+ " " +:+ envScript h +:+ " "
                  +:+ ConanEnv_value conanEnv +:+ " " +:+ args));
            StateUpdateBackupEnv backupEnv]
        ++ concat (pairEffects <$> toEnvVars overlay)
        ++ mirrorEffects h (toEnvVars overlay)
        ++ [StateUpdateActiveEnv (Some (configName, conanEnv, overlay));
            ExecuteCommand (refreshCommand h);
            AppendLine (LineActivate conanEnv overlay);
            ShowInformationMessage
              ("Activated Environment " +:+ configName +:+ "["
               +:+ ConanEnv_value conanEnv +:+ "]")].
Proof.
  intros st' overlay. subst st'. unfold activateEnvironment.
  set (st1 := restoreEnvironment h st). clearbody st1.
  unfold readEnvFromConan. cbv beta iota zeta. cbn [fst]. fold overlay.
  exists ((λ kv, backupEntry (Map_of (default [] (ws_backupEnv st1)))
                   (process_env st1) kv.1) <$> toEnvVars overlay).
  split.
  - exact (proj1 (proj2 (proj2
             (applyNewEnv_fields h conanEnv configName overlay
                (emit (AppendLine
                         (LineExecuting
                            (pythonInterpreter +:+ " " +:+ envScript h
                             +:+ " " +:+ ConanEnv_value conanEnv +:+ " "
                             +:+ args))) st1))))).
  - unfold applyNewEnv, refreshCommand.
    destruct (remoteName h); simpl;
      rewrite updateVSCodeEnvironment_trace; simpl;
      by rewrite <- !app_assoc.
Qed.

(** With the [.env] setting off, [restoreEnvironment] makes exactly these
    calls, in this order: for each pair of the stored backup the
    assignment or the deletion in [process.env] and then the same in the
    collection, and last the update that clears the marker. The backup
    record is not written and no command is run. *)
Theorem restoreEnvironment_calls (h : Host) (st : State) :
  isUpdateDotEnv h = false →
  trace (restoreEnvironment h st)
  = trace st ++ concat (pairEffects <$> default [] (ws_backupEnv st))
    ++ [StateUpdateActiveEnv None].
Proof.
  intros Hoff. rewrite restoreEnvironment_trace. unfold mirrorEffects.
  rewrite Hoff. destruct (ws_backupEnv st); simpl; by rewrite ?app_nil_r.
Qed.

Lemma restoreEnvironment_calls_witness :
  trace (restoreEnvironment (posix false) activatedState)
  = trace activatedState
    ++ [EnvAssign "PATH" "/usr/bin:/bin";
        CollectionReplace "PATH" "/usr/bin:/bin";
        EnvAssign "CC" "cc"; CollectionReplace "CC" "cc";
        StateUpdateActiveEnv None].
Proof.
  rewrite (restoreEnvironment_calls (posix false) activatedState eq_refl).
  vm_compute. reflexivity.
Defined.

(** With the [.env] setting off, a successful activation makes exactly
    these calls, in this order: those of the restore it starts with; the
    line that announces the script; the update of the backup record; for
    each member of the overlay the assignment or the deletion in
    [process.env] and then the same in the collection; the update of the
    marker; the command that restarts the extension host, or reloads the
    window when it is remote; the line with the overlay; and the message
    to the user. The backup is thus persisted before any variable of the
    overlay is changed, and the marker before the host is restarted. *)
Theorem activateEnvironment_calls (h : Host) (conanEnv : ConanEnv)
    (configName pythonInterpreter args : string)
    (parsed : list (string * string)) (st : State) :
  isUpdateDotEnv h = false →
  let st' := (activateEnvironment h conanEnv configName pythonInterpreter args
                (Parsed parsed) st).1 in
  let overlay := overlayOf h pythonInterpreter parsed in
  ∃ backupEnv,
    ws_backupEnv st' = Some backupEnv
    ∧ trace st'
      = trace st ++ concat (pairEffects <$> default [] (ws_backupEnv st))
        ++ [StateUpdateActiveEnv None;
            AppendLine
              (LineExecuting
                 (pythonInterpreter +:+ " " +:+ envScript h +:+ " "
                  +:+ ConanEnv_value conanEnv +:+ " " +:+ args));
            StateUpdateBackupEnv backupEnv]
        ++ concat (pairEffects <$> toEnvVars overlay)
        ++ [StateUpdateActiveEnv (Some (configName, conanEnv, overlay));
            ExecuteCommand (refreshCommand h);
            AppendLine (LineActivate conanEnv overlay);
            ShowInformationMessage
              ("Activated Environment " +:+ configName +:+ "["
               +:+ ConanEnv_value conanEnv +:+ "]")].
Proof.
  intros Hoff st' overlay.
  destruct (activateEnvironment_trace h conanEnv configName pythonInterpreter
              args parsed st) as (backupEnv & Hb & Ht).
  exists backupEnv. split; [exact Hb |]. subst st'. rewrite Ht.
  rewrite restoreEnvironment_trace. unfold mirrorEffects. rewrite Hoff.
  destruct (ws_backupEnv st); simpl; by rewrite <- ?app_assoc, ?app_nil_r.
Qed.

Lemma activateEnvironment_calls_witness :
  ∃ backupEnv,
    ws_backupEnv activatedState = Some backupEnv
    ∧ trace activatedState
      = [StateUpdateActiveEnv None;
         AppendLine
           (LineExecuting
              "/usr/bin/python3 /ext/resources/print_env.py BuildEnv ");
         StateUpdateBackupEnv backupEnv;
         EnvAssign "PATH" "/usr/bin:/opt/conan/bin";
         CollectionReplace "PATH" "/usr/bin:/opt/conan/bin";
         EnvAssign "CC" "gcc"; CollectionReplace "CC" "gcc";
         StateUpdateActiveEnv
           (Some ("default", buildEnv,
                  [("PATH", "/usr/bin:/opt/conan/bin"); ("CC", "gcc")]));
         ExecuteCommand "workbench.action.restartExtensionHost";
         AppendLine
           (LineActivate buildEnv
              [("PATH", "/usr/bin:/opt/conan/bin"); ("CC", "gcc")]);
         ShowInformationMessage "Activated Environment default[BuildEnv]"].
Proof.
  destruct (activateEnvironment_calls (posix false) buildEnv "default"
              "/usr/bin/python3" "" parsedBuild freshState eq_refl)
    as (backupEnv & Hb & Ht).
  exists backupEnv. split; [exact Hb |].
  etransitivity; [exact Ht |]. vm_compute. reflexivity.
Defined.

(** * The superseded manager *)

(** The backup the earlier [updateBackupEnvironment] stores has one entry
    per entry of [newenv], under the same name; for a name the stored
    backup already tracks the entry carries the value [newenv] itself
    gives, and for any other name the value of [process.env]. *)
Theorem superseded_updateBackupEnvironment_snapshot (newenv : EnvVars)
    (st : State) :
  ∃ snapshot,
    ws_backupEnv (Superseded.updateBackupEnvironment newenv st)
    = Some snapshot
    ∧ names snapshot = names newenv
    ∧ ∀ (i : nat) key value, newenv !! i = Some (key, value) →
        snapshot !! i
        = Some (key,
                match Map_of (default [] (ws_backupEnv st)) !! key with
                | Some _ => value
                | None => process_env st !! key
                end).
Proof.
  eexists. split; [reflexivity |]. split.
  - unfold names. rewrite <- list_fmap_compose. apply list_fmap_ext.
    intros i kv _. simpl.
    by destruct (Map_of (default [] (ws_backupEnv st)) !! kv.1).
  - intros i key value H. rewrite list_lookup_fmap, H. simpl.
    by destruct (Map_of (default [] (ws_backupEnv st)) !! key).
Qed.

Lemma superseded_backup_lookup (newenv : EnvVars) (st : State) (k : string) :
  is_Some (Map_of (default [] (ws_backupEnv st)) !! k) →
  Map_of (default [] (ws_backupEnv
                        (Superseded.updateBackupEnvironment newenv st))) !! k
  = Map_of newenv !! k.
Proof.
  intros [tracked Ht]. unfold Superseded.updateBackupEnvironment.
  set (M := Map_of (default [] (ws_backupEnv st))) in *. clearbody M.
  cbn [update_backupEnv emit ws_backupEnv default from_option id].
  induction newenv as [|kv newenv IH] using rev_ind; [done |].
  rewrite fmap_app, !Map_of_snoc. cbn [fmap list_fmap app].
  rewrite Map_of_snoc.
  destruct (decide (kv.1 = k)) as [E|E].
  - subst k. rewrite Ht. cbn [fst snd]. by rewrite !lookup_insert_eq.
  - destruct (M !! kv.1); cbn [fst snd]; by rewrite !lookup_insert_ne.
Qed.

(** With the earlier [updateBackupEnvironment], a name that the stored
    backup already tracks is not put back by the restore that follows the
    overlay: it keeps the value the overlay gave it. *)
Theorem superseded_restore_keeps_overlay_value (h : Host) (newenv : EnvVars)
    (st : State) (k : string) :
  is_Some (Map_of (default [] (ws_backupEnv st)) !! k) →
  k ∈ names newenv →
  let st1 := Superseded.updateBackupEnvironment newenv st in
  let st2 := updateVSCodeEnvironment h newenv st1 in
  process_env (restoreEnvironment h st2) !! k = process_env st2 !! k.
Proof.
  intros Ht Hk st1 st2.
  rewrite restoreEnvironment_lookup.
  destruct (updateVSCodeEnvironment_fields h newenv st1) as (_ & _ & Hb & _).
  fold st2 in Hb. rewrite Hb. subst st1.
  rewrite superseded_backup_lookup by done.
  destruct (Map_of newenv !! k) as [value|] eqn:E.
  - subst st2.
    destruct (updateVSCodeEnvironment_lookup h newenv
                (Superseded.updateBackupEnvironment newenv st) k) as [-> _].
    by rewrite E.
  - by apply Map_of_None in E.
Qed.

Lemma superseded_restore_keeps_overlay_value_witness :
  process_env
    (restoreEnvironment (posix false)
       (updateVSCodeEnvironment (posix false) [("CC", Some "clang")]
          (Superseded.updateBackupEnvironment [("CC", Some "clang")]
             trackedCC))) !! "CC"
  = Some "clang".
Proof.
  refine (eq_trans
            (superseded_restore_keeps_overlay_value (posix false)
               [("CC", Some "clang")] trackedCC "CC" _ _) eq_refl).
  - exists (Some "cc"). reflexivity.
  - apply list_elem_of_here.
Defined.

(** * The workspace manager *)

Section Manager.

Import WorkspaceManager.

Context {A : Type}.
Implicit Types (desk : Desk A) (configList : list (ConfigCommand A)).

Lemma quickPickItems_member configList (item : QuickPickItem) :
  item ∈ quickPickItems configList →
  ∃ c, configList !! index item = Some c
       ∧ label item = name c
       ∧ item_description item = description c
       ∧ item_detail item = detail c.
Proof.
  unfold quickPickItems. intros Hin.
  apply list_elem_of_lookup in Hin as [i Hi].
  rewrite list_lookup_imap in Hi.
  destruct (configList !! i) as [c|] eqn:E; simpl in Hi; [| done].
  injection Hi as <-. simpl. eauto.
Qed.

(** The quick pick shows one item per configuration, in the order of the
    list; the index an item carries is the position of the configuration
    whose name, description and detail it shows. *)
Theorem quickPickItems_index configList :
  length (quickPickItems configList) = length configList
  ∧ (∀ item, item ∈ quickPickItems configList →
       ∃ c, configList !! index item = Some c
            ∧ label item = name c
            ∧ item_description item = description c
            ∧ item_detail item = detail c)
  ∧ (∀ i c, configList !! i = Some c →
       ∃ item, quickPickItems configList !! i = Some item
               ∧ index item = i ∧ label item = name c).
Proof.
  split; [apply length_imap |]. split; [apply quickPickItems_member |].
  intros i c Hc. unfold quickPickItems.
  rewrite list_lookup_imap, Hc. simpl. eauto.
Qed.

Lemma executeCommandConan_cases desk (cmdType : ConanCommand)
    (wsPath python : string)
    (configList : option (list (ConfigCommand A))) :
  let calls := executeCommandConan desk cmdType wsPath python configList in
  (configList = None ∧ calls = [])
  ∨ ∃ l, configList = Some l
    ∧ ((showQuickPick desk (quickPickItems l) = None
        ∧ calls = [QuickPick (quickPickItems l)])
       ∨ ∃ item, showQuickPick desk (quickPickItems l) = Some item
         ∧ ((buildCommand desk cmdType wsPath python (l !! index item) = None
             ∧ calls = [QuickPick (quickPickItems l);
                        ErrorMessage ("Unable to execute conan "
                                      +:+ commandWord cmdType +:+ " command!")])
            ∨ ∃ cmd,
                buildCommand desk cmdType wsPath python (l !! index item)
                = Some cmd
                ∧ ((executeCommand desk cmd = None
                    ∧ calls = [QuickPick (quickPickItems l); Execute cmd])
                   ∨ ∃ message,
                       executeCommand desk cmd = Some message
                       ∧ calls = [QuickPick (quickPickItems l); Execute cmd;
                                  ErrorMessage message]))).
Proof.
  unfold executeCommandConan, getCommandConfigIndex.
  destruct configList as [l|]; [| by left]. right. exists l.
  split; [done |]. simpl.
  destruct (showQuickPick desk (quickPickItems l)) as [item|]; simpl;
    [| by left].
  right. exists item. split; [done |].
  destruct (buildCommand desk cmdType wsPath python (l !! index item))
    as [cmd|]; [| by left].
  right. exists cmd. split; [done |].
  destruct (executeCommand desk cmd) as [message|]; [| by left].
  right. by exists message.
Qed.

Lemma executeConanCommand_dispatch desk (cmdType : ConanCommand)
    (wsPath : string) (configWorkspace : ConfigWorkspace A) :
  selectWorkspace desk = Resolved (Some wsPath) →
  existsSync desk
    (path_join desk [wsPath; VSCONAN_FOLDER desk; CONFIG_FILE desk]) = true →
  readConfig desk
    (path_join desk [wsPath; VSCONAN_FOLDER desk; CONFIG_FILE desk])
  = Some configWorkspace →
  executeConanCommand desk cmdType
  = executeCommandConan desk cmdType wsPath (python configWorkspace)
      (containerOf cmdType (commandContainer configWorkspace)).
Proof.
  intros Hws Hex Hread. unfold executeConanCommand.
  rewrite Hws, Hex, Hread. by destruct cmdType.
Qed.

Lemma executeConanCommand_reaches desk (cmdType : ConanCommand) :
  executeConanCommand desk cmdType = []
  ∨ (∃ wsPath,
        selectWorkspace desk = Resolved (Some wsPath)
        ∧ existsSync desk
            (path_join desk [wsPath; VSCONAN_FOLDER desk; CONFIG_FILE desk])
          = false
        ∧ executeConanCommand desk cmdType
          = [WarningMessage
               ("Unable to find configuration file in the workspace '"
                +:+ wsPath +:+ "'")])
  ∨ ∃ wsPath configWorkspace,
      selectWorkspace desk = Resolved (Some wsPath)
      ∧ existsSync desk
          (path_join desk [wsPath; VSCONAN_FOLDER desk; CONFIG_FILE desk])
        = true
      ∧ readConfig desk
          (path_join desk [wsPath; VSCONAN_FOLDER desk; CONFIG_FILE desk])
        = Some configWorkspace
      ∧ executeConanCommand desk cmdType
        = executeCommandConan desk cmdType wsPath (python configWorkspace)
            (containerOf cmdType (commandContainer configWorkspace)).
Proof.
  destruct (selectWorkspace desk) as [|[wsPath|]] eqn:Hws;
    [left; unfold executeConanCommand; by rewrite Hws | |
     left; unfold executeConanCommand; by rewrite Hws].
  destruct (existsSync desk
              (path_join desk [wsPath; VSCONAN_FOLDER desk; CONFIG_FILE desk]))
    eqn:Hex.
  - destruct (readConfig desk
                (path_join desk [wsPath; VSCONAN_FOLDER desk;
                                 CONFIG_FILE desk]))
      as [configWorkspace|] eqn:Hread.
    + right. right. exists wsPath, configWorkspace.
      repeat (split; [done |]). by apply executeConanCommand_dispatch.
    + left. unfold executeConanCommand. by rewrite Hws, Hex, Hread.
  - right. left. exists wsPath. repeat (split; [done |]).
    unfold executeConanCommand. by rewrite Hws, Hex.
Qed.

Ltac in_calls H :=
  repeat (apply elem_of_cons in H as [H|H]; [try discriminate H |]);
  try (by apply elem_of_nil in H).

(** A command line is run only when a workspace is selected, its
    configuration file exists and can be read, and the user has picked an
    item; the command line is then the one the builder returns for the
    command type, the workspace path, the interpreter of the
    configuration file and the configuration, in the list of that
    command type, whose name is the label of the picked item. *)
Theorem executeConanCommand_runs_the_picked_configuration desk
    (cmdType : ConanCommand) (cmd : string) :
  (∀ items item, showQuickPick desk items = Some item → item ∈ items) →
  Execute cmd ∈ executeConanCommand desk cmdType →
  ∃ wsPath configWorkspace configList item c,
    selectWorkspace desk = Resolved (Some wsPath)
    ∧ existsSync desk
        (path_join desk [wsPath; VSCONAN_FOLDER desk; CONFIG_FILE desk])
      = true
    ∧ readConfig desk
        (path_join desk [wsPath; VSCONAN_FOLDER desk; CONFIG_FILE desk])
      = Some configWorkspace
    ∧ containerOf cmdType (commandContainer configWorkspace) = Some configList
    ∧ showQuickPick desk (quickPickItems configList) = Some item
    ∧ configList !! index item = Some c
    ∧ name c = label item
    ∧ buildCommand desk cmdType wsPath (python configWorkspace) (Some c)
      = Some cmd.
Proof.
  intros Hpick Hin.
  destruct (executeConanCommand_reaches desk cmdType)
    as [E | [(wsPath & _ & _ & E) | (wsPath & cw & Hws & Hex & Hread & E)]];
    rewrite E in Hin; [in_calls Hin | in_calls Hin |].
  destruct (executeCommandConan_cases desk cmdType wsPath (python cw)
              (containerOf cmdType (commandContainer cw)))
    as [[_ E1] | (l & Hl & [[_ E1] | (item & Hitem &
         [[_ E1] | (cmd' & Hbuild & [[_ E1] | (message & _ & E1)])])])];
    rewrite E1 in Hin; in_calls Hin.
  - injection Hin as ->.
    destruct (quickPickItems_member l item (Hpick _ _ Hitem))
      as (c & Hc & Hname & _).
    rewrite Hc in Hbuild. by exists wsPath, cw, l, item, c.
  - injection Hin as ->.
    destruct (quickPickItems_member l item (Hpick _ _ Hitem))
      as (c & Hc & Hname & _).
    rewrite Hc in Hbuild. by exists wsPath, cw, l, item, c.
Qed.

(** One invocation runs at most one command line, and no failure on its
    way is dropped: a missing configuration file gives the warning that
    names the workspace and nothing else; once the user has picked an
    item, either a command line is run or the error that names the
    command is shown; and when running the command line throws, the
    message of the error is shown right after it. The six commands have
    six different words in their error. *)
Theorem executeConanCommand_failures_are_shown desk (cmdType : ConanCommand) :
  let calls := executeConanCommand desk cmdType in
  (length (filter (λ c, isExecute c) calls) ≤ 1)%nat
  ∧ (∀ wsPath,
        selectWorkspace desk = Resolved (Some wsPath) →
        existsSync desk
          (path_join desk [wsPath; VSCONAN_FOLDER desk; CONFIG_FILE desk])
        = false →
        calls
        = [WarningMessage
             ("Unable to find configuration file in the workspace '"
              +:+ wsPath +:+ "'")])
  ∧ (∀ items item,
        QuickPick items ∈ calls → showQuickPick desk items = Some item →
        (∃ cmd, Execute cmd ∈ calls)
        ∨ ErrorMessage ("Unable to execute conan " +:+ commandWord cmdType
                        +:+ " command!") ∈ calls)
  ∧ (∀ cmd message,
        Execute cmd ∈ calls → executeCommand desk cmd = Some message →
        ∃ before, calls = before ++ [Execute cmd; ErrorMessage message])
  ∧ (∀ other, commandWord other = commandWord cmdType → other = cmdType).
Proof.
  intros calls. subst calls.
  split; [| split; [| split; [| split]]].
  - destruct (executeConanCommand_reaches desk cmdType)
      as [E | [(wsPath & _ & _ & E) | (wsPath & cw & _ & _ & _ & E)]];
      rewrite E; [simpl; lia | simpl; lia |].
    destruct (executeCommandConan_cases desk cmdType wsPath (python cw)
                (containerOf cmdType (commandContainer cw)))
      as [[_ E1] | (l & Hl & [[_ E1] | (item & Hitem &
           [[_ E1] | (cmd' & Hbuild & [[_ E1] | (message & _ & E1)])])])];
      rewrite E1; simpl; lia.
  - intros wsPath Hws Hex. unfold executeConanCommand. by rewrite Hws, Hex.
  - intros items item Hin Hitem.
    destruct (executeConanCommand_reaches desk cmdType)
      as [E | [(wsPath & _ & _ & E) | (wsPath & cw & _ & _ & _ & E)]];
      rewrite E in *; [in_calls Hin | in_calls Hin |].
    destruct (executeCommandConan_cases desk cmdType wsPath (python cw)
                (containerOf cmdType (commandContainer cw)))
      as [[_ E1] | (l & Hl & [[Hnone E1] | (item' & Hitem' &
           [[_ E1] | (cmd' & Hbuild & [[_ E1] | (message & _ & E1)])])])];
      rewrite E1 in *; in_calls Hin.
    + injection Hin as ->. congruence.
    + right. apply list_elem_of_further, list_elem_of_here.
    + left. exists cmd'. apply list_elem_of_further, list_elem_of_here.
    + left. exists cmd'. apply list_elem_of_further, list_elem_of_here.
  - intros cmd message Hin Hthrows.
    destruct (executeConanCommand_reaches desk cmdType)
      as [E | [(wsPath & _ & _ & E) | (wsPath & cw & _ & _ & _ & E)]];
      rewrite E in *; [in_calls Hin | in_calls Hin |].
    destruct (executeCommandConan_cases desk cmdType wsPath (python cw)
                (containerOf cmdType (commandContainer cw)))
      as [[_ E1] | (l & Hl & [[_ E1] | (item & Hitem &
           [[_ E1] | (cmd' & Hbuild & [[Hok E1] | (message' & Hm & E1)])])])];
      rewrite E1 in *; in_calls Hin.
    + injection Hin as ->. congruence.
    + injection Hin as ->. rewrite Hm in Hthrows. injection Hthrows as ->.
      by exists [QuickPick (quickPickItems l)].
  - intros other. by destruct other, cmdType.
Qed.

Lemma writeInitialConfig_calls desk (vsconanPath : string)
    (paths : gset string) (calls : list Call) :
  (writeInitialConfig desk vsconanPath paths calls).1 = paths
  ∧ (∀ p, ((MkdirSync p
            ∈ (writeInitialConfig desk vsconanPath paths calls).2)
           ↔ (MkdirSync p ∈ calls)))
  ∧ (∀ p, CreateInitialWorkspaceConfig p
          ∈ (writeInitialConfig desk vsconanPath paths calls).2 →
       CreateInitialWorkspaceConfig p ∈ calls
       ∨ ((path_join desk [p; CONFIG_FILE desk] ∉ paths)
          ∧ OpenFileInEditor (path_join desk [p; CONFIG_FILE desk])
            ∈ (writeInitialConfig desk vsconanPath paths calls).2)).
Proof.
  unfold writeInitialConfig. case_bool_decide as Hfile; simpl.
  - split; [done |]. split.
    + intros p. rewrite elem_of_app. split; [| by left].
      intros [H|H]; [done | in_calls H].
    + intros p H. apply elem_of_app in H as [H|H]; [by left | in_calls H].
  - split; [done |]. split.
    + intros p. rewrite elem_of_app. split; [| by left].
      intros [H|H]; [done | in_calls H].
    + intros p H. apply elem_of_app in H as [H|H]; [by left |].
      in_calls H. injection H as ->. right. split; [done |].
      apply elem_of_app. right.
      apply list_elem_of_further, list_elem_of_here.
Qed.

(** [createWorkspaceConfig] removes no path. When the selection is
    resolved, [mkdirSync] is called on the [.vsconan] folder exactly when
    the folder does not exist; the folder exists afterwards unless that
    call throws, and when it throws nothing is changed and the message
    of a missing workspace is shown. The initial configuration is
    written only when no configuration file exists, in which case the
    new file is opened, so an existing configuration is not written
    over. *)
Theorem createWorkspaceConfig_keeps_existing desk
    (mkdirThrows : string → bool) (paths : gset string) :
  let paths' := (createWorkspaceConfig desk mkdirThrows paths).1 in
  let calls := (createWorkspaceConfig desk mkdirThrows paths).2 in
  paths ⊆ paths'
  ∧ (∀ result, selectWorkspace desk = Resolved result →
       let vsconanPath :=
         path_join desk [String_of result; VSCONAN_FOLDER desk] in
       (MkdirSync vsconanPath ∈ calls ↔ vsconanPath ∉ paths)
       ∧ (vsconanPath ∈ paths ∨ mkdirThrows vsconanPath = false →
          vsconanPath ∈ paths')
       ∧ (vsconanPath ∉ paths → mkdirThrows vsconanPath = true →
          paths' = paths
          ∧ calls
            = [MkdirSync vsconanPath;
               InformationMessage
                 "Cannot create config file. No workspace detected."]))
  ∧ (∀ p, CreateInitialWorkspaceConfig p ∈ calls →
       (path_join desk [p; CONFIG_FILE desk] ∉ paths)
       ∧ OpenFileInEditor (path_join desk [p; CONFIG_FILE desk]) ∈ calls).
Proof.
  unfold createWorkspaceConfig.
  destruct (selectWorkspace desk) as [|result]; simpl.
  - split; [done |]. split; [done |]. intros p Hin. in_calls Hin.
  - set (vsconanPath := path_join desk [String_of result; VSCONAN_FOLDER desk]).
    case_bool_decide as Hdir.
    + destruct (writeInitialConfig_calls desk vsconanPath paths [])
        as (-> & Hmk & Hcr).
      split; [done |]. split.
      * intros ? [= <-]. split; [| split; [done | done]].
        rewrite Hmk. split; [intros H; in_calls H | done].
      * intros p H. destruct (Hcr p H) as [H'|H']; [in_calls H' | done].
    + destruct (mkdirThrows vsconanPath) eqn:Hthrow; simpl.
      * split; [done |]. split.
        -- intros ? [= <-]. split; [| split; [| done]].
           ++ split; [done | intros _; apply list_elem_of_here].
           ++ intros [H|H]; [done |]. exfalso. revert H.
              change (mkdirThrows vsconanPath = false → False).
              rewrite Hthrow. discriminate.
        -- intros p H. in_calls H.
      * destruct (writeInitialConfig_calls desk vsconanPath
                    ({[vsconanPath]} ∪ paths) [MkdirSync vsconanPath])
          as (-> & Hmk & Hcr).
        split; [apply union_subseteq_r |]. split.
        -- intros ? [= <-]. split; [| split].
           ++ rewrite Hmk. split; [done | intros _; apply list_elem_of_here].
           ++ intros _. apply elem_of_union. left. by apply elem_of_singleton.
           ++ intros _ H. exfalso. revert H.
              change (mkdirThrows vsconanPath = true → False).
              rewrite Hthrow. discriminate.
        -- intros p H. destruct (Hcr p H) as [H'|[H1 H2]]; [in_calls H' |].
           split; [| done]. intros Hp. apply H1, elem_of_union. by right.
Qed.

End Manager.

Lemma quickPickItems_index_witness :
  ∃ item,
    WorkspaceManager.quickPickItems
      (default [] (WorkspaceManager.cc_create
                     (WorkspaceManager.commandContainer
                        WorkspaceManager.exampleConfig))) !! 1
    = Some item
    ∧ WorkspaceManager.index item = 1
    ∧ WorkspaceManager.label item = "release".
Proof.
  exact (proj2 (proj2 (quickPickItems_index
                         (default [] (WorkspaceManager.cc_create
                                        (WorkspaceManager.commandContainer
                                           WorkspaceManager.exampleConfig)))))
           1 (WorkspaceManager.mkConfigCommand "release" "" ""
                "-s build_type=Release") eq_refl).
Defined.

Lemma executeConanCommand_runs_the_picked_configuration_witness :
  ∃ c,
    WorkspaceManager.name c = "release"
    ∧ WorkspaceManager.buildCommand (WorkspaceManager.exampleDesk true)
        WorkspaceManager.create "/home/user/ws" "python3" (Some c)
      = Some ("python3 -m conans.conan create /home/user/ws "
              +:+ "-s build_type=Release").
Proof.
  destruct (executeConanCommand_runs_the_picked_configuration
              (WorkspaceManager.exampleDesk true) WorkspaceManager.create
              ("python3 -m conans.conan create /home/user/ws "
               +:+ "-s build_type=Release"))
    as (wsPath & cw & l & item & c & Hws & _ & Hread & Hl & Hitem & _
        & Hname & Hbuild).
  - intros items item Hitem. by apply list_elem_of_lookup_2 in Hitem.
  - apply list_elem_of_further, list_elem_of_here.
  - injection Hws as <-. injection Hread as <-. injection Hl as <-.
    injection Hitem as <-. exists c. split; [exact Hname | exact Hbuild].
Defined.

Lemma executeConanCommand_failures_are_shown_witness :
  WorkspaceManager.executeConanCommand (WorkspaceManager.exampleDesk false)
    WorkspaceManager.install
  = [WorkspaceManager.WarningMessage
       "Unable to find configuration file in the workspace '/home/user/ws'"].
Proof.
  exact (proj1 (proj2 (executeConanCommand_failures_are_shown
                         (WorkspaceManager.exampleDesk false)
                         WorkspaceManager.install))
           "/home/user/ws" eq_refl eq_refl).
Defined.

Lemma createWorkspaceConfig_keeps_existing_witness :
  "/home/user/ws/.vsconan"
  ∈ (WorkspaceManager.createWorkspaceConfig (WorkspaceManager.exampleDesk true)
       (λ _, false) {[ "/home/user/ws" ]}).1.
Proof.
  exact (proj1 (proj2 (proj1 (proj2 (createWorkspaceConfig_keeps_existing
                                       (WorkspaceManager.exampleDesk true)
                                       (λ _, false) {[ "/home/user/ws" ]}))
                         (Some "/home/user/ws") eq_refl))
           (or_intror eq_refl)).
Defined.
